(** * WeChatPush: a model of [util/WeChatPush.py]

    The client caches a bearer token in a pickle file, fetches a new one
    from the authentication endpoint when it has none, and posts one
    rich-article message to the message-send endpoint.

    Python values are modelled by the inductive [pyval], strings by lists
    of code points, floats by binary64 numbers, and the file system, the
    clock, the two HTTP endpoints and standard output by the record [world]
    threaded through a state-and-exception monad. *)

From Stdlib Require Import List ZArith NArith Bool Lia String Ascii.
From Stdlib Require Import PrimFloat SpecFloat FloatOps.
Import ListNotations.

Set Implicit Arguments.
Set Warnings "-register-all".

(** ** Strings *)

(** A Python [str] is a sequence of Unicode code points. *)
Definition pystr := list N.

(** An ASCII literal of the source, as a [pystr]. *)
Definition lit (s : string) : pystr :=
  List.map N_of_ascii (list_ascii_of_string s).

Arguments lit s%_string.

Definition pystr_eqb (a b : pystr) : bool :=
  if list_eq_dec N.eq_dec a b then true else false.

Module Str.

(** [s.startswith(p)] *)
Fixpoint starts_with (p s : pystr) : bool :=
  match p, s with
  | [], _ => true
  | _ :: _, [] => false
  | a :: p', b :: s' => N.eqb a b && starts_with p' s'
  end.

(** The left-to-right scan of [str.replace] for a non-empty [old]:
    [skip] counts the code points of a match still to be dropped. *)
Fixpoint replace_scan (old new : pystr) (skip : nat) (s : pystr) : pystr :=
  match s with
  | [] => []
  | c :: rest =>
      match skip with
      | S k => replace_scan old new k rest
      | O =>
          if starts_with old s
          then new ++ replace_scan old new (List.length old - 1) rest
          else c :: replace_scan old new 0 rest
      end
  end.

(** [s.replace(old, new)]: every non-overlapping occurrence of [old],
    found from the left, becomes [new]; an empty [old] matches before
    every code point and at the end. *)
Definition replace (s old new : pystr) : pystr :=
  match old with
  | [] => new ++ flat_map (fun c => c :: new) s
  | _ :: _ => replace_scan old new 0 s
  end.

(** [c.isspace()] for a single code point. *)
Definition isspace (c : N) : bool :=
  ((0x9 <=? c) && (c <=? 0xD) || (0x1C <=? c) && (c <=? 0x20)
   || (c =? 0x85) || (c =? 0xA0) || (c =? 0x1680)
   || (0x2000 <=? c) && (c <=? 0x200A)
   || (c =? 0x2028) || (c =? 0x2029) || (c =? 0x202F)
   || (c =? 0x205F) || (c =? 0x3000))%N.

Fixpoint lstrip (s : pystr) : pystr :=
  match s with
  | [] => []
  | c :: rest => if isspace c then lstrip rest else s
  end.

Definition rstrip (s : pystr) : pystr := rev (lstrip (rev s)).

(** [s.strip()] *)
Definition strip (s : pystr) : pystr := rstrip (lstrip s).

(** [s.split(sep)] for a separator of one code point: the fields
    between the occurrences of [sep], empty fields included. *)
Fixpoint split (sep : N) (s : pystr) : list pystr :=
  match s with
  | [] => [[]]
  | c :: rest =>
      if N.eqb c sep then [] :: split sep rest
      else match split sep rest with
           | f :: fs => (c :: f) :: fs
           | [] => [[c]]
           end
  end.

End Str.

(** ** Floats *)

Module Float.

(** [float(z)] for a Python [int]: the nearest binary64 number, ties to
    even; [None] stands for [OverflowError]. *)
Definition of_Z (z : Z) : option float :=
  let x := SF2Prim (binary_normalize prec emax z 0 false) in
  if is_infinity x then None else Some x.

(** [x < z] for a float and an [int]: Python compares the exact values. *)
Definition ltb_Z (x : float) (z : Z) : bool :=
  match Prim2SF x with
  | S754_nan => false
  | S754_infinity s => s
  | S754_zero _ => (0 <? z)%Z
  | S754_finite s m e =>
      let n := (if s then Z.neg m else Z.pos m) in
      if (0 <=? e)%Z then (n * 2 ^ e <? z)%Z
      else (n <? z * 2 ^ (- e))%Z
  end.

(** [x != 0.0] *)
Definition nonzero (x : float) : bool := negb (PrimFloat.eqb x zero).

End Float.


(** ** Values *)

(** The Python values that a JSON reply, the token file or an attribute of
    the client hold: [None], booleans, integers, floats, strings, lists
    and dicts.  A dict is listed by its string keys, the only ones the
    program looks up.  Instances of other classes, which a pickle can also
    restore, are left out. *)
Inductive pyval :=
| PNone
| PBool (b : bool)
| PInt (z : Z)
| PFloat (x : float)
| PStr (s : pystr)
| PList (l : list pyval)
| PDict (d : list (pystr * pyval)).

(** An f-string, kept as its literal parts and the values interpolated
    between them. *)
Inductive piece :=
| Lit (s : pystr)
| Hole (v : pyval).

Definition fstring := list piece.

Inductive exn :=
| IndexError
| ValueError
| TypeError
| AttributeError
| KeyError (key : pystr)
| OverflowError
| FileNotFoundError
| EOFError
| OSError
| UnpicklingError
| JSONDecodeError
| ConnectionError
| UnicodeDecodeError
| ModuleNotFoundError
| MemoryError
| Exception (msg : fstring).

Inductive result (A : Type) :=
| Return (a : A)
| Raise (e : exn).

Arguments Raise {A} e.

Module Py.

(** [bool(v)] *)
Definition truthy (v : pyval) : bool :=
  match v with
  | PNone => false
  | PBool b => b
  | PInt z => negb (z =? 0)%Z
  | PFloat x => Float.nonzero x
  | PStr [] => false
  | PStr (_ :: _) => true
  | PList [] => false
  | PList (_ :: _) => true
  | PDict [] => false
  | PDict (_ :: _) => true
  end.

Definition Z_of_bool (b : bool) : Z := if b then 1%Z else 0%Z.

(** [v == 0] *)
Definition eq_zero (v : pyval) : bool :=
  match v with
  | PInt z => (z =? 0)%Z
  | PBool b => negb b
  | PFloat x => PrimFloat.eqb x zero
  | _ => false
  end.

(** [x < v] for a float [x]; ordering a float against a value that is
    not a number is a [TypeError]. *)
Definition float_lt (x : float) (v : pyval) : result bool :=
  match v with
  | PFloat y => Return (PrimFloat.ltb x y)
  | PInt z => Return (Float.ltb_Z x z)
  | PBool b => Return (Float.ltb_Z x (Z_of_bool b))
  | _ => Raise TypeError
  end.

(** [x + v] for a float [x]. *)
Definition float_add (x : float) (v : pyval) : result float :=
  match v with
  | PFloat y => Return (PrimFloat.add x y)
  | PInt z =>
      match Float.of_Z z with
      | Some y => Return (PrimFloat.add x y)
      | None => Raise OverflowError
      end
  | PBool b => Return (PrimFloat.add x (if b then one else zero))
  | _ => Raise TypeError
  end.

Fixpoint assoc (key : pystr) (d : list (pystr * pyval)) : option pyval :=
  match d with
  | [] => None
  | (k, v) :: d' => if pystr_eqb k key then Some v else assoc key d'
  end.

(** [data.get(key)]: only a dict has the method. *)
Definition get (data : pyval) (key : pystr) : result pyval :=
  match data with
  | PDict d =>
      match assoc key d with
      | Some v => Return v
      | None => Return PNone
      end
  | _ => Raise AttributeError
  end.

(** [data[key]] for a string key. *)
Definition subscript (data : pyval) (key : pystr) : result pyval :=
  match data with
  | PDict d =>
      match assoc key d with
      | Some v => Return v
      | None => Raise (KeyError key)
      end
  | _ => Raise TypeError
  end.

(** [l[i]] for a list. *)
Definition index (A : Type) (l : list A) (i : nat) : result A :=
  match nth_error l i with
  | Some x => Return x
  | None => Raise IndexError
  end.

End Py.

(** ** The environment *)

(** The other exceptions [pickle.load] raises on bytes that are not a
    well-formed pickle, depending on the bytes. *)
Inductive garble :=
| BadValue               (* ValueError, as for an unsupported protocol *)
| BadText                (* UnicodeDecodeError, for a string that is not UTF-8 *)
| TooLarge               (* OverflowError, for a length beyond the maximum *)
| BadAttribute           (* AttributeError, for an opcode on the wrong object *)
| BadType                (* TypeError, likewise *)
| BadModule              (* ModuleNotFoundError, for a global that is not there *)
| NoMemory.              (* MemoryError, for a length that cannot be allocated *)

Definition garble_exn (k : garble) : exn :=
  match k with
  | BadValue => ValueError
  | BadText => UnicodeDecodeError
  | TooLarge => OverflowError
  | BadAttribute => AttributeError
  | BadType => TypeError
  | BadModule => ModuleNotFoundError
  | NoMemory => MemoryError
  end.

(** What opening the token file and unpickling it gives. *)
Inductive file :=
| Missing                (* no such file, in a directory that is there:
                            [open] raises FileNotFoundError for reading and
                            creates the file for writing *)
| Inaccessible           (* a directory, or access denied: [open] raises
                            another OSError, for reading and for writing *)
| Empty                  (* no bytes, or bytes that end just where the
                            unpickler reads its next opcode (with the default
                            protocol, after the two-byte header): [pickle.load]
                            runs out of input and raises EOFError *)
| Corrupt                (* a pickle cut short anywhere else, or bytes that
                            are no pickle: [pickle.load] raises
                            UnpicklingError *)
| Garbled (k : garble)   (* bytes on which [pickle.load] raises another
                            exception *)
| Pickled (v : pyval).   (* [pickle.load] returns [v] *)

(** A reply of the [requests] library; [json] is [None] when the body is
    not JSON and [response.json()] raises. *)
Record response := {
  status_code : Z;
  json : option pyval
}.

Inductive reply :=
| Replied (r : response)
| Unreachable.           (* [requests] raises ConnectionError *)

Record world := {
  now : float;                                    (* [time.time()] *)
  files : pystr -> file;
  on_get : fstring -> reply;                      (* by url *)
  on_post : fstring -> pyval -> pyval -> reply    (* by url, json, headers *)
}.

(** What a call does that the outside sees, in order. *)
Inductive event :=
| Get (url : fstring)
| Post (url : fstring) (body headers : pyval)
| Print (msg : fstring).

(** ** The monad: state, exceptions and the events emitted *)

Definition M (St A : Type) : Type := St -> result A * St * list event.

Definition ret {St A : Type} (a : A) : M St A :=
  fun s => (Return a, s, []).

Definition raise {St A : Type} (e : exn) : M St A :=
  fun s => (Raise e, s, []).

Definition bind {St A B : Type} (m : M St A) (k : A -> M St B) : M St B :=
  fun s =>
    match m s with
    | (Return a, s1, t1) =>
        match k a s1 with
        | (r, s2, t2) => (r, s2, t1 ++ t2)
        end
    | (Raise e, s1, t1) => (Raise e, s1, t1)
    end.

Notation "x <- m ;; k" := (bind m (fun x => k))
  (at level 61, m at next level, right associativity).
Notation "m ;;; k" := (bind m (fun _ => k))
  (at level 61, right associativity).

(** [try: m  except (...): handler], the clause catching what [caught]
    accepts. *)
Definition try_except {St A : Type} (m : M St A) (caught : exn -> bool)
    (handler : M St A) : M St A :=
  fun s =>
    match m s with
    | (Raise e, s1, t1) =>
        if caught e
        then match handler s1 with (r, s2, t2) => (r, s2, t1 ++ t2) end
        else (Raise e, s1, t1)
    | done => done
    end.

Definition of_result {St A : Type} (r : result A) : M St A :=
  fun s => (r, s, []).

Definition emit {St : Type} (e : event) : M St unit :=
  fun s => (Return tt, s, [e]).

Module Env.

(** [time.time()] *)
Definition time : M world float :=
  fun w => (Return (now w), w, []).

(** [with open(path, 'rb') as f: pickle.load(f)] *)
Definition load (path : pystr) : M world pyval :=
  fun w =>
    match files w path with
    | Missing => (Raise FileNotFoundError, w, [])
    | Inaccessible => (Raise OSError, w, [])
    | Empty => (Raise EOFError, w, [])
    | Corrupt => (Raise UnpicklingError, w, [])
    | Garbled k => (Raise (garble_exn k), w, [])
    | Pickled v => (Return v, w, [])
    end.

Definition write (w : world) (path : pystr) (v : pyval) : world :=
  {| now := now w;
     files := fun p => if pystr_eqb p path then Pickled v else files w p;
     on_get := on_get w;
     on_post := on_post w |}.

(** [with open(path, 'wb') as f: pickle.dump(v, f)], for the plain values
    of [pyval], which [pickle.dump] always accepts.  When [open] fails
    nothing is touched.  Once the file is open it has been emptied, and
    the write is taken to go through: a disk that fills up while
    [pickle.dump] writes, which would raise OSError and leave the file cut
    short, is not part of this environment. *)
Definition dump (path : pystr) (v : pyval) : M world unit :=
  fun w =>
    match files w path with
    | Inaccessible => (Raise OSError, w, [])
    | _ => (Return tt, write w path v, [])
    end.

(** [requests.get(url)] *)
Definition http_get (url : fstring) : M world response :=
  fun w =>
    match on_get w url with
    | Replied r => (Return r, w, [Get url])
    | Unreachable => (Raise ConnectionError, w, [Get url])
    end.

(** [requests.post(url=url, json=body, headers=headers)] *)
Definition http_post (url : fstring) (body headers : pyval) : M world response :=
  fun w =>
    match on_post w url body headers with
    | Replied r => (Return r, w, [Post url body headers])
    | Unreachable => (Raise ConnectionError, w, [Post url body headers])
    end.

(** [response.json()] *)
Definition json_of (r : response) : result pyval :=
  match json r with
  | Some v => Return v
  | None => Raise JSONDecodeError
  end.

End Env.

(** ** The class [WeChatPush] *)

Record client := {
  token_list : list pystr;
  corpid : pystr;
  corpsecret : pystr;
  agentid : pystr;
  token_file : pystr;
  access_token : pyval
}.

Module WeChatPush.

Definition default_token_file : pystr := lit "access_token.data".

(** Methods run on the object and the environment together. *)
Definition method (A : Type) : Type := M (client * world) A.

Definition env {A : Type} (m : M world A) : method A :=
  fun s =>
    match m (snd s) with
    | (r, w', t) => (r, (fst s, w'), t)
    end.

Definition self : method client :=
  fun s => (Return (fst s), s, []).

Definition with_access_token (this : client) (v : pyval) : client :=
  {| token_list := token_list this;
     corpid := corpid this;
     corpsecret := corpsecret this;
     agentid := agentid this;
     token_file := token_file this;
     access_token := v |}.

(** [self.access_token = v] *)
Definition set_access_token (v : pyval) : method unit :=
  fun s => (Return tt, (with_access_token (fst s) v, snd s), []).

Definition caught_by_load (e : exn) : bool :=
  match e with
  | FileNotFoundError | EOFError => true
  | _ => false
  end.

(** [_load_access_token]: of [self] it reads [self.token_file] only, and
    [__init__] calls it before [self.access_token] exists. *)
Definition _load_access_token (self_token_file : pystr) : M world pyval :=
  try_except
    (data <- Env.load self_token_file ;;
     access_token <- of_result (Py.get data (lit "access_token")) ;;
     expire_time <- of_result (Py.get data (lit "expire_time")) ;;
     valid <- (if Py.truthy access_token
               then t <- Env.time ;; of_result (Py.float_lt t expire_time)
               else ret false) ;;
     if (valid : bool) then ret access_token else ret PNone)
    caught_by_load
    (ret PNone).

Definition __init__ (token_str token_file : pystr) : M world client :=
  let token_list := Str.split 0x23 token_str in
  corpid <- of_result (Py.index token_list 0) ;;
  corpsecret <- of_result (Py.index token_list 1) ;;
  agentid <- of_result (Py.index token_list 2) ;;
  access_token <- _load_access_token token_file ;;
  ret {| token_list := token_list;
         corpid := corpid;
         corpsecret := corpsecret;
         agentid := agentid;
         token_file := token_file;
         access_token := access_token |}.

Definition cache_entry (access_token : pyval) (expire_time : float) : pyval :=
  PDict [ (lit "access_token", access_token);
          (lit "expire_time", PFloat expire_time) ].

Definition _save_access_token (access_token expires_in : pyval) : method unit :=
  t <- env Env.time ;;
  expire_time <- of_result (Py.float_add t expires_in) ;;
  let data := cache_entry access_token expire_time in
  this <- self ;;
  env (Env.dump (token_file this) data) ;;;
  set_access_token access_token.

Definition gettoken_url (corpid corpsecret : pystr) : fstring :=
  [ Lit (lit "https://qyapi.weixin.qq.com/cgi-bin/gettoken?corpid=");
    Hole (PStr corpid);
    Lit (lit "&corpsecret=");
    Hole (PStr corpsecret) ].

(** "获取 access_token 失败: " *)
Definition msg_gettoken_failed : pystr :=
  [0x83b7; 0x53d6]%N ++ lit " access_token " ++ [0x5931; 0x8d25]%N ++ lit ": ".

(** "请求失败, 错误代码: " *)
Definition msg_request_failed : pystr :=
  [0x8bf7; 0x6c42; 0x5931; 0x8d25]%N ++ lit ", "
  ++ [0x9519; 0x8bef; 0x4ee3; 0x7801]%N ++ lit ": ".

Definition _get_access_token : method pyval :=
  this <- self ;;
  if Py.truthy (access_token this) then ret (access_token this)
  else
    let url := gettoken_url (corpid this) (corpsecret this) in
    response <- env (Env.http_get url) ;;
    if (status_code response =? 200)%Z then
      data <- of_result (Env.json_of response) ;;
      errcode <- of_result (Py.get data (lit "errcode")) ;;
      if Py.eq_zero errcode then
        access_token <- of_result (Py.subscript data (lit "access_token")) ;;
        expires_in <- of_result (Py.subscript data (lit "expires_in")) ;;
        _save_access_token access_token expires_in ;;;
        ret access_token
      else
        errmsg <- of_result (Py.subscript data (lit "errmsg")) ;;
        raise (Exception [Lit msg_gettoken_failed; Hole errmsg])
    else
      raise (Exception [Lit msg_request_failed;
                        Hole (PInt (status_code response))]).

Definition headers : pyval :=
  PDict [
    (lit "accept", PStr (lit "application/json, text/plain, */*"));
    (lit "accept-encoding", PStr (lit "gzip, deflate, br"));
    (lit "accept-language", PStr (lit "zh-CN,zh;q=0.9"));
    (lit "content-type", PStr (lit "application/json;charset=UTF-8"));
    (lit "user-agent", PStr (lit "Mozilla/5.0 (iPhone; CPU iPhone OS 18_3 like Mac OS X) AppleWebKit/605.1.15 (KHTML, like Gecko) Mobile/15E148"))
  ].

Definition send_url (access_token : pyval) : fstring :=
  [ Lit (lit "https://qyapi.weixin.qq.com/cgi-bin/message/send?access_token=");
    Hole access_token ].

Definition newline : pystr := [0xA%N].

(** The chain of [replace] calls on [content]. *)
Definition clean_digest (content : pystr) : pystr :=
  let s := Str.replace content (lit "<div>") (lit "") in
  let s := Str.replace s (lit "</div>") (lit "") in
  let s := Str.replace s (lit "<ul>") (lit "") in
  let s := Str.replace s (lit "</ul>") (lit "") in
  let s := Str.replace s (lit "<li>") (lit "") in
  let s := Str.replace s (lit "</li>") (lit "") in
  let s := Str.replace s (lit "<span>") newline in
  Str.replace s (lit "</span>") (lit "").

Definition thumb_media_id : pystr :=
  lit "2olmh7kAnR5KVR0BuHzAiOuWEFkBF8ITqi6AQxTUR3bQiFpnP2UukUn9xNtk-LvIm".

(** "锐大神" *)
Definition author : pystr := [0x9510; 0x5927; 0x795e]%N.

Definition content_source_url : pystr := lit "https://www.fglt.net/index.php".

(** The dict [data] of [send_message], once [int(self.agentid)] is [n]. *)
Definition message (n : Z) (title content : pystr) : pyval :=
  PDict [
    (lit "touser", PStr (lit "@all"));
    (lit "msgtype", PStr (lit "mpnews"));
    (lit "agentid", PInt n);
    (lit "mpnews",
      PDict [
        (lit "articles",
          PList [
            PDict [
              (lit "title", PStr (Str.replace title newline (lit "")));
              (lit "thumb_media_id", PStr thumb_media_id);
              (lit "author", PStr author);
              (lit "content_source_url", PStr content_source_url);
              (lit "content", PStr content);
              (lit "digest", PStr (Str.strip (clean_digest content)))
            ]
          ])
      ])
  ].

(** "消息发送成功" *)
Definition msg_sent : pystr :=
  [0x6d88; 0x606f; 0x53d1; 0x9001; 0x6210; 0x529f]%N.

(** "消息发送失败, 错误代码: " *)
Definition msg_send_failed : pystr :=
  [0x6d88; 0x606f; 0x53d1; 0x9001; 0x5931; 0x8d25]%N ++ lit ", "
  ++ [0x9519; 0x8bef; 0x4ee3; 0x7801]%N ++ lit ": ".

Section SendMessage.

(** Python's [int(s)] on a string: the number, or [None] where it raises
    [ValueError].  What it accepts (surrounding whitespace, a sign,
    underscores, non-ASCII digits, a length limit) is left to the
    interpreter. *)
Variable int : pystr -> option Z.

Definition int_of (s : pystr) : result Z :=
  match int s with
  | Some n => Return n
  | None => Raise ValueError
  end.

Definition send_message (title content : pystr) : method pyval :=
  access_token <- _get_access_token ;;
  let push_url := send_url access_token in
  this <- self ;;
  n <- of_result (int_of (agentid this)) ;;
  let data := message n title content in
  response <- env (Env.http_post push_url data headers) ;;
  if (status_code response =? 200)%Z then
    emit (Print [Lit msg_sent]) ;;;
    of_result (Env.json_of response)
  else
    emit (Print [Lit msg_send_failed; Hole (PInt (status_code response))]) ;;;
    ret PNone.

End SendMessage.

End WeChatPush.

(** ** Sample inputs *)

Module Sample.

Fixpoint digits (acc : Z) (s : pystr) : option Z :=
  match s with
  | [] => Some acc
  | c :: rest =>
      if ((0x30 <=? c) && (c <=? 0x39))%N
      then digits (10 * acc + Z.of_N (c - 0x30)) rest
      else None
  end.

(** [int] on the plain decimal literals: an optional sign, then ASCII
    digits.  There it is Python's [int]. *)
Definition int (s : pystr) : option Z :=
  match s with
  | [] => None
  | c :: rest =>
      if (c =? 0x2D)%N then
        match rest with [] => None | _ :: _ => option_map Z.opp (digits 0 rest) end
      else if (c =? 0x2B)%N then
        match rest with [] => None | _ :: _ => digits 0 rest end
      else digits 0 s
  end.

Definition json_dict (d : list (pystr * pyval)) : reply :=
  Replied {| status_code := 200; json := Some (PDict d) |}.

(** The authentication endpoint grants ["T2"] for 7200 seconds; the
    message endpoint accepts every message. *)
Definition granting (t : float) (f : file) : world :=
  {| now := t;
     files := fun _ => f;
     on_get := fun _ =>
       json_dict [ (lit "errcode", PInt 0);
                   (lit "errmsg", PStr (lit "ok"));
                   (lit "access_token", PStr (lit "T2"));
                   (lit "expires_in", PInt 7200) ];
     on_post := fun _ _ _ =>
       json_dict [ (lit "errcode", PInt 0); (lit "errmsg", PStr (lit "ok")) ] |}.

(** The authentication endpoint answers with error 40013. *)
Definition refusing (t : float) (f : file) : world :=
  {| now := t;
     files := fun _ => f;
     on_get := fun _ =>
       json_dict [ (lit "errcode", PInt 40013);
                   (lit "errmsg", PStr (lit "invalid corpid")) ];
     on_post := fun _ _ _ =>
       json_dict [ (lit "errcode", PInt 0); (lit "errmsg", PStr (lit "ok")) ] |}.

(** The message endpoint answers with HTTP status [code] and no JSON. *)
Definition failing_send (code : Z) (t : float) (f : file) : world :=
  {| now := t;
     files := fun _ => f;
     on_get := on_get (granting t f);
     on_post := fun _ _ _ => Replied {| status_code := code; json := None |} |}.

Definition cached (token : pystr) (expire_time : float) : file :=
  Pickled (WeChatPush.cache_entry (PStr token) expire_time).

Definition bare (token : pyval) : client :=
  {| token_list := [lit "id"; lit "secret"; lit "1000002"];
     corpid := lit "id";
     corpsecret := lit "secret";
     agentid := lit "1000002";
     token_file := WeChatPush.default_token_file;
     access_token := token |}.

(** A client whose third field is not a number. *)
Definition unnumbered : client :=
  {| token_list := [lit "id"; lit "secret"; lit "app"];
     corpid := lit "id";
     corpsecret := lit "secret";
     agentid := lit "app";
     token_file := WeChatPush.default_token_file;
     access_token := PNone |}.

(** A client without a token, no cache file, both endpoints answering. *)
Definition fresh : client * world := (bare PNone, granting 1000 Missing).

Definition spans : pystr := lit "<span>A</span><span>B</span>".

(** The cache file holds ["T1"], good until 2000. *)
Definition with_cache (t : float) : world :=
  granting t (cached (lit "T1") 2000).

End Sample.

(** ** Reading a posted message *)

Module Posted.

(** [body["mpnews"]["articles"]] *)
Definition articles (body : pyval) : list pyval :=
  match body with
  | PDict d =>
      match Py.assoc (lit "mpnews") d with
      | Some (PDict m) =>
          match Py.assoc (lit "articles") m with
          | Some (PList l) => l
          | _ => []
          end
      | _ => []
      end
  | _ => []
  end.

(** [body["mpnews"]["articles"][0][key]] *)
Definition article_field (body : pyval) (key : pystr) : option pyval :=
  match articles body with
  | PDict a :: _ => Py.assoc key a
  | _ => None
  end.

Definition is_post (e : event) : bool :=
  match e with
  | Post _ _ _ => true
  | _ => false
  end.

(** No request went to the message-send endpoint. *)
Definition no_post (t : list event) : Prop :=
  forall e, In e t -> is_post e = false.

(** What a call of [_get_access_token] leaves alone, and what it may
    emit: nothing, or the one request to the authentication endpoint. *)
Record token_step (s s1 : client * world) (t : list event) : Prop := {
  step_events :
    t = []
    \/ t = [Get (WeChatPush.gettoken_url (corpid (fst s))
                   (corpsecret (fst s)))];
  step_agentid : agentid (fst s1) = agentid (fst s);
  step_on_post : on_post (snd s1) = on_post (snd s)
}.

End Posted.

(** ** The entry point and what surrounds a call *)

(** The same environment with the clock at [t]. *)
Definition at_time (w : world) (t : float) : world :=
  {| now := t;
     files := files w;
     on_get := on_get w;
     on_post := on_post w |}.

(** [sep.join(fields)] *)
Fixpoint join (sep : pystr) (fields : list pystr) : pystr :=
  match fields with
  | [] => []
  | [f] => f
  | f :: rest => f ++ sep ++ join sep rest
  end.

(** A value is a number the clock can be compared with and added to. *)
Definition is_number (v : pyval) : bool :=
  match v with
  | PBool _ | PInt _ | PFloat _ => true
  | _ => false
  end.

(** The four tags that [send_message] takes out, opening and closing. *)
Definition tags : list (pystr * pystr) :=
  [ (lit "<div>", lit "</div>"); (lit "<ul>", lit "</ul>");
    (lit "<li>", lit "</li>"); (lit "<span>", lit "</span>") ].

Definition is_get (e : event) : bool :=
  match e with
  | Get _ => true
  | _ => false
  end.

Module Main.

(** [wx.m(...)]: the method [m] called on the object [wx]. *)
Definition call {A : Type} (wx : client) (m : WeChatPush.method A)
    : M world A :=
  fun w =>
    match m (wx, w) with
    | (r, s', t) => (r, snd s', t)
    end.

Definition Corppid_Corpsecret_Agentid : pystr := lit "wwe11a5be7f".

(** "这是一个示例标题" *)
Definition summary : pystr :=
  [0x8fd9; 0x662f; 0x4e00; 0x4e2a; 0x793a; 0x4f8b; 0x6807; 0x9898]%N.

(** "<div>这是一个示例摘要</div>" *)
Definition result : pystr :=
  lit "<div>"
  ++ [0x8fd9; 0x662f; 0x4e00; 0x4e2a; 0x793a; 0x4f8b; 0x6458; 0x8981]%N
  ++ lit "</div>".

(** The block under [if __name__ == "__main__"]; [int] is Python's. *)
Definition main (int : pystr -> option Z) : M world pyval :=
  wx <- WeChatPush.__init__ Corppid_Corpsecret_Agentid
          WeChatPush.default_token_file ;;
  call wx (WeChatPush.send_message int summary result).

End Main.

Module Scenario.

(** The authentication endpoint grants a token but gives its lifetime as
    the string ["7200"]. *)
Definition text_lifetime : world :=
  {| now := 1000;
     files := fun _ => Missing;
     on_get := fun _ =>
       Sample.json_dict [ (lit "errcode", PInt 0);
                          (lit "access_token", PStr (lit "T2"));
                          (lit "expires_in", PStr (lit "7200")) ];
     on_post := fun _ _ _ => Unreachable |}.

End Scenario.

(** * Properties *)

Import WeChatPush.

(** ** String operations *)

Lemma replace_newline_filter (s : pystr) :
  Str.replace s newline (lit "") = filter (fun c => negb (c =? 0xA)%N) s.
Proof.
  unfold Str.replace, newline. cbn [lit list_ascii_of_string List.map].
  induction s as [|c rest IH]; [reflexivity|].
  cbn [Str.replace_scan Str.starts_with List.length Nat.sub filter].
  rewrite andb_true_r, N.eqb_sym.
  destruct (c =? 10)%N; cbn [negb app]; now rewrite IH.
Qed.

Lemma filter_without (s : pystr) :
  ~ In 0xA%N s -> filter (fun c => negb (c =? 0xA)%N) s = s.
Proof.
  induction s as [|c rest IH]; intros Hn; [reflexivity|].
  cbn [filter].
  destruct (N.eqb_spec c 10) as [->|_].
  - exfalso. apply Hn. now left.
  - cbn [negb]. f_equal. apply IH. intros Hin. apply Hn. now right.
Qed.

(** ** The shape of a run of [send_message] *)

Section Runs.

Variable int : pystr -> option Z.

(** [send_message] first gets a token, then parses the agent id, then
    posts exactly one message and reports the outcome. *)
Lemma send_message_run (title content : pystr) (s : client * world) :
  send_message int title content s =
  match _get_access_token s with
  | (Raise e, s1, t1) => (Raise e, s1, t1)
  | (Return tok, s1, t1) =>
      match int (agentid (fst s1)) with
      | None => (Raise ValueError, s1, t1)
      | Some n =>
          let body := message n title content in
          let post := Post (send_url tok) body headers in
          match on_post (snd s1) (send_url tok) body headers with
          | Unreachable => (Raise ConnectionError, s1, t1 ++ [post])
          | Replied r =>
              if (status_code r =? 200)%Z
              then (Env.json_of r, s1, t1 ++ [post; Print [Lit msg_sent]])
              else (Return PNone, s1,
                    t1 ++ [post;
                           Print [Lit msg_send_failed;
                                  Hole (PInt (status_code r))]])
          end
      end
  end.
Proof.
  unfold send_message, bind at 1.
  destruct (_get_access_token s) as [[[tok|e] s1] t1]; [|reflexivity].
  destruct s1 as [this w].
  unfold bind, self, of_result, int_of, env, Env.http_post, emit, ret.
  cbn [fst snd].
  destruct (int (agentid this)) as [n|]; cbn [app]; [|now rewrite app_nil_r].
  destruct (on_post w _ _ _) as [r|]; cbn [app fst snd]; [|reflexivity].
  destruct (status_code r =? 200)%Z; reflexivity.
Qed.

End Runs.

(** ** The shape of a run of the token methods *)

Lemma load_run (path : pystr) (w : world) :
  _load_access_token path w =
  match files w path with
  | Missing | Empty => (Return PNone, w, [])
  | Inaccessible => (Raise OSError, w, [])
  | Corrupt => (Raise UnpicklingError, w, [])
  | Garbled k => (Raise (garble_exn k), w, [])
  | Pickled (PDict d) =>
      let tok := match Py.assoc (lit "access_token") d with
                 | Some v => v
                 | None => PNone
                 end in
      let expiry := match Py.assoc (lit "expire_time") d with
                    | Some v => v
                    | None => PNone
                    end in
      if Py.truthy tok then
        match Py.float_lt (now w) expiry with
        | Return true => (Return tok, w, [])
        | Return false => (Return PNone, w, [])
        | Raise _ => (Raise TypeError, w, [])
        end
      else (Return PNone, w, [])
  | Pickled _ => (Raise AttributeError, w, [])
  end.
Proof.
  unfold _load_access_token, try_except, bind, Env.load, of_result, ret.
  destruct (files w path) as [| | | |k|v]; try reflexivity;
    [destruct k; reflexivity|].
  destruct v; try reflexivity.
  unfold Py.get.
  destruct (Py.assoc (lit "access_token") d) as [tok|];
    destruct (Py.assoc (lit "expire_time") d) as [expiry|];
    cbn [app caught_by_load Py.truthy];
    try reflexivity;
    (destruct (Py.truthy tok); [|reflexivity]);
    unfold Env.time; cbn [app];
    match goal with
    | |- context [Py.float_lt _ ?v] => destruct v
    end;
    cbn [Py.float_lt app caught_by_load];
    try reflexivity;
    match goal with
    | |- context [if ?b then _ else _] => destruct b; reflexivity
    end.
Qed.

Lemma save_run (tok ttl : pyval) (this : client) (w : world) :
  _save_access_token tok ttl (this, w) =
  match Py.float_add (now w) ttl with
  | Raise e => (Raise e, (this, w), [])
  | Return expiry =>
      match files w (token_file this) with
      | Inaccessible => (Raise OSError, (this, w), [])
      | _ => (Return tt,
              (with_access_token this tok,
               Env.write w (token_file this) (cache_entry tok expiry)),
              [])
      end
  end.
Proof.
  unfold _save_access_token, bind, env, Env.time, of_result, self, Env.dump,
    set_access_token.
  cbn [fst snd app].
  destruct (Py.float_add (now w) ttl) as [expiry|e]; [|reflexivity].
  cbn [fst snd app].
  destruct (files w (token_file this)); reflexivity.
Qed.

Lemma get_access_token_step (s s1 : client * world) (r : result pyval)
    (t : list event) :
  _get_access_token s = (r, s1, t) -> Posted.token_step s s1 t.
Proof.
  destruct s as [this w].
  unfold _get_access_token, bind at 1, self. cbn [fst snd app].
  destruct (Py.truthy (access_token this)).
  - intros [= <- <- <-]. split; auto.
  - unfold bind at 1, env, Env.http_get. cbn [fst snd].
    destruct (on_get w _) as [resp|]; [|intros [= <- <- <-]; split; auto].
    cbn [app].
    destruct (status_code resp =? 200)%Z;
      [|intros [= <- <- <-]; split; auto].
    unfold bind at 1, of_result.
    destruct (Env.json_of resp) as [data|e];
      [|intros [= <- <- <-]; split; auto].
    unfold bind at 1.
    destruct (Py.get data (lit "errcode")) as [errcode|e];
      [|intros [= <- <- <-]; split; auto].
    destruct (Py.eq_zero errcode).
    + unfold bind at 1.
      destruct (Py.subscript data (lit "access_token")) as [tok|e];
        [|intros [= <- <- <-]; split; auto].
      unfold bind at 1.
      destruct (Py.subscript data (lit "expires_in")) as [ttl|e];
        [|intros [= <- <- <-]; split; auto].
      unfold bind at 1. rewrite save_run.
      destruct (Py.float_add (now w) ttl) as [expiry|e];
        [|intros [= <- <- <-]; split; auto].
      destruct (files w (token_file this));
        intros [= <- <- <-]; split; auto.
    + unfold bind at 1.
      destruct (Py.subscript data (lit "errmsg")) as [m|e];
        intros [= <- <- <-]; split; auto.
Qed.

(** ** The message that is posted *)

Lemma token_step_no_post (s s1 : client * world) (t : list event) :
  Posted.token_step s s1 t -> Posted.no_post t.
Proof.
  intros [[-> | ->] _ _] e; cbn [In]; [tauto|].
  intros [<- | []]. reflexivity.
Qed.

Section Message.

Variable int : pystr -> option Z.

(** Whatever [send_message] posts is the dict [message] built from the
    parsed agent id, the title and the content, with the fixed headers. *)
Lemma posted_message (title content : pystr) (s s' : client * world)
    (res : result pyval) (t : list event) (url : fstring)
    (body hdrs : pyval) :
  send_message int title content s = (res, s', t) ->
  In (Post url body hdrs) t ->
  exists n, int (agentid (fst s)) = Some n
            /\ body = message n title content
            /\ hdrs = headers.
Proof.
  rewrite send_message_run.
  destruct (_get_access_token s) as [[[tok|e] s1] t1] eqn:Hget;
    pose proof (get_access_token_step _ Hget) as Hstep;
    pose proof (token_step_no_post Hstep) as Hquiet;
    destruct Hstep as [_ Hagent _].
  2: { intros [= <- <- <-] Hin. now apply Hquiet in Hin. }
  rewrite Hagent.
  destruct (int (agentid (fst s))) as [n|].
  2: { intros [= <- <- <-] Hin. now apply Hquiet in Hin. }
  cbv zeta.
  assert (Hpost : forall tail,
             (forall e, In e tail -> Posted.is_post e = false) ->
             In (Post url body hdrs)
                (t1 ++ Post (send_url tok) (message n title content) headers
                    :: tail) ->
             exists n0, Some n = Some n0
                        /\ body = message n0 title content
                        /\ hdrs = headers).
  { intros tail Htail Hin. apply in_app_or in Hin.
    destruct Hin as [Hin | [Heq | Hin]].
    - now apply Hquiet in Hin.
    - injection Heq as <- <- <-. now exists n.
    - now apply Htail in Hin. }
  destruct (on_post (snd s1) _ _ _) as [r|].
  - destruct (status_code r =? 200)%Z; intros [= <- <- <-];
      apply Hpost; intros e [<- | []]; reflexivity.
  - intros [= <- <- <-]. apply Hpost. intros e [].
Qed.

End Message.

Lemma article_title (n : Z) (title content : pystr) :
  Posted.article_field (message n title content) (lit "title")
  = Some (PStr (Str.replace title newline (lit ""))).
Proof. reflexivity. Qed.

Lemma article_digest (n : Z) (title content : pystr) :
  Posted.article_field (message n title content) (lit "digest")
  = Some (PStr (Str.strip (clean_digest content))).
Proof. reflexivity. Qed.

(** C8: for every title and content, the message posted by [send_message]
    is addressed to "@all", has kind "mpnews", carries the configured
    agent id as a number, and holds exactly one article made of the title
    (newlines removed), the fixed thumbnail media id, the fixed author, the
    fixed source link, the content as given and the digest derived from
    it; the request carries the fixed headers. *)
Theorem payload_fixed_shape (int : pystr -> option Z) (title content : pystr)
    (s s' : client * world) (res : result pyval) (t : list event)
    (url : fstring) (body hdrs : pyval) :
  send_message int title content s = (res, s', t) ->
  In (Post url body hdrs) t ->
  exists n,
    int (agentid (fst s)) = Some n
    /\ hdrs = headers
    /\ body =
       PDict [
         (lit "touser", PStr (lit "@all"));
         (lit "msgtype", PStr (lit "mpnews"));
         (lit "agentid", PInt n);
         (lit "mpnews",
           PDict [
             (lit "articles",
               PList [
                 PDict [
                   (lit "title", PStr (Str.replace title newline (lit "")));
                   (lit "thumb_media_id",
                    PStr (lit "2olmh7kAnR5KVR0BuHzAiOuWEFkBF8ITqi6AQxTUR3bQiFpnP2UukUn9xNtk-LvIm"));
                   (lit "author", PStr [0x9510; 0x5927; 0x795e]%N);
                   (lit "content_source_url",
                    PStr (lit "https://www.fglt.net/index.php"));
                   (lit "content", PStr content);
                   (lit "digest", PStr (Str.strip (clean_digest content)))
                 ]
               ])
           ])
       ].
Proof.
  intros Hrun Hin.
  destruct (@posted_message int title content s s' res t url body hdrs Hrun Hin) as (n & Hn & -> & ->).
  exists n. repeat split. exact Hn.
Qed.

Lemma payload_fixed_shape_witness :
  exists n,
    Sample.int (agentid (fst Sample.fresh)) = Some n
    /\ headers = headers
    /\ message 1000002 (lit "t") (lit "<div>X</div>") =
       PDict [
         (lit "touser", PStr (lit "@all"));
         (lit "msgtype", PStr (lit "mpnews"));
         (lit "agentid", PInt n);
         (lit "mpnews",
           PDict [
             (lit "articles",
               PList [
                 PDict [
                   (lit "title",
                    PStr (Str.replace (lit "t") newline (lit "")));
                   (lit "thumb_media_id",
                    PStr (lit "2olmh7kAnR5KVR0BuHzAiOuWEFkBF8ITqi6AQxTUR3bQiFpnP2UukUn9xNtk-LvIm"));
                   (lit "author", PStr [0x9510; 0x5927; 0x795e]%N);
                   (lit "content_source_url",
                    PStr (lit "https://www.fglt.net/index.php"));
                   (lit "content", PStr (lit "<div>X</div>"));
                   (lit "digest",
                    PStr (Str.strip (clean_digest (lit "<div>X</div>"))))
                 ]
               ])
           ])
       ].
Proof.
  refine (@payload_fixed_shape Sample.int (lit "t") (lit "<div>X</div>")
            Sample.fresh _ _ _ (send_url (PStr (lit "T2")))
            (message 1000002 (lit "t") (lit "<div>X</div>")) headers _ _).
  - reflexivity.
  - cbv. right. left. reflexivity.
Defined.

(** C9: the title of the posted article is the given title with every
    newline removed; a title without a newline is passed on unchanged. *)
Theorem title_newlines_removed (int : pystr -> option Z)
    (title content : pystr) (s s' : client * world) (res : result pyval)
    (t : list event) (url : fstring) (body hdrs : pyval) :
  send_message int title content s = (res, s', t) ->
  In (Post url body hdrs) t ->
  Posted.article_field body (lit "title")
  = Some (PStr (filter (fun c => negb (c =? 0xA)%N) title))
  /\ (~ In 0xA%N title ->
      Posted.article_field body (lit "title") = Some (PStr title)).
Proof.
  intros Hrun Hin.
  destruct (@posted_message int title content s s' res t url body hdrs
              Hrun Hin) as (n & _ & -> & _).
  rewrite article_title, replace_newline_filter.
  split; [reflexivity|].
  intros Hnone. now rewrite filter_without.
Qed.

Lemma title_newlines_removed_witness :
  Posted.article_field
    (message 1000002 (lit "a" ++ newline ++ lit "b") (lit "<div>X</div>"))
    (lit "title")
  = Some (PStr (lit "ab"))
  /\ Posted.article_field
       (message 1000002 (lit "t") (lit "<div>X</div>")) (lit "title")
     = Some (PStr (lit "t")).
Proof.
  split.
  - refine (proj1 (@title_newlines_removed Sample.int
                     (lit "a" ++ newline ++ lit "b") (lit "<div>X</div>")
                     Sample.fresh _ _ _ (send_url (PStr (lit "T2")))
                     (message 1000002 (lit "a" ++ newline ++ lit "b")
                        (lit "<div>X</div>"))
                     headers _ _)).
    + reflexivity.
    + cbv. right. left. reflexivity.
  - refine (proj2 (@title_newlines_removed Sample.int
                     (lit "t") (lit "<div>X</div>")
                     Sample.fresh _ _ _ (send_url (PStr (lit "T2")))
                     (message 1000002 (lit "t") (lit "<div>X</div>"))
                     headers _ _) _).
    + reflexivity.
    + cbv. right. left. reflexivity.
    + cbv. intros [H | []]. discriminate H.
Defined.

(** ** The digest *)

(** C1, as the code has it: for ["<div>X</div>"] the digest of the posted
    article is ["X"]; for ["<span>A</span><span>B</span>"] the chain of
    replacements gives a newline, ["A"], a newline, ["B"], and the final
    [strip()] takes the leading newline away, so the digest of the posted
    article is ["A"], a newline, ["B"]. *)
Theorem digest_of_fixed_inputs (int : pystr -> option Z)
    (title content : pystr) (s s' : client * world) (res : result pyval)
    (t : list event) (url : fstring) (body hdrs : pyval) :
  send_message int title content s = (res, s', t) ->
  In (Post url body hdrs) t ->
  (content = lit "<div>X</div>" ->
   Posted.article_field body (lit "digest") = Some (PStr (lit "X")))
  /\ (content = lit "<span>A</span><span>B</span>" ->
      clean_digest content = newline ++ lit "A" ++ newline ++ lit "B"
      /\ Posted.article_field body (lit "digest")
         = Some (PStr (lit "A" ++ newline ++ lit "B"))).
Proof.
  intros Hrun Hin.
  destruct (@posted_message int title content s s' res t url body hdrs
              Hrun Hin) as (n & _ & -> & _).
  rewrite article_digest.
  split; intros ->; [|split]; reflexivity.
Qed.

Lemma digest_of_fixed_inputs_witness :
  Posted.article_field
    (message 1000002 (lit "t") (lit "<div>X</div>")) (lit "digest")
  = Some (PStr (lit "X"))
  /\ Posted.article_field
       (message 1000002 (lit "t") Sample.spans) (lit "digest")
     = Some (PStr (lit "A" ++ newline ++ lit "B")).
Proof.
  split.
  - refine (proj1 (@digest_of_fixed_inputs Sample.int
                     (lit "t") (lit "<div>X</div>")
                     Sample.fresh _ _ _ (send_url (PStr (lit "T2")))
                     (message 1000002 (lit "t") (lit "<div>X</div>"))
                     headers _ _) eq_refl).
    + reflexivity.
    + cbv. right. left. reflexivity.
  - refine (proj2 (proj2 (@digest_of_fixed_inputs Sample.int
                            (lit "t") Sample.spans
                            Sample.fresh _ _ _ (send_url (PStr (lit "T2")))
                            (message 1000002 (lit "t") Sample.spans)
                            headers _ _) eq_refl)).
    + reflexivity.
    + cbv. right. left. reflexivity.
Defined.

(** C1 as stated fails: the digest posted for
    ["<span>A</span><span>B</span>"] is not the string that starts with a
    newline. *)
Lemma digest_keeps_no_leading_newline :
  ~ (forall (int : pystr -> option Z) (title : pystr)
            (s s' : client * world) (res : result pyval) (t : list event)
            (url : fstring) (body hdrs : pyval),
        send_message int title (lit "<span>A</span><span>B</span>") s
        = (res, s', t) ->
        In (Post url body hdrs) t ->
        Posted.article_field body (lit "digest")
        = Some (PStr (newline ++ lit "A" ++ newline ++ lit "B"))).
Proof.
  intros Hall.
  specialize (Hall Sample.int (lit "t") Sample.fresh _ _ _
                (send_url (PStr (lit "T2")))
                (message 1000002 (lit "t") Sample.spans) headers
                eq_refl).
  assert (Hin : In (Post (send_url (PStr (lit "T2")))
                      (message 1000002 (lit "t") Sample.spans) headers)
                   (snd (send_message Sample.int (lit "t") Sample.spans
                           Sample.fresh))).
  { cbv. right. left. reflexivity. }
  specialize (Hall Hin). rewrite article_digest in Hall.
  vm_compute in Hall. discriminate Hall.
Qed.

(** ** The token cache *)

Lemma pystr_eqb_eq (a b : pystr) : pystr_eqb a b = true <-> a = b.
Proof.
  unfold pystr_eqb. destruct (list_eq_dec N.eq_dec a b); split;
    congruence.
Qed.

Lemma pystr_eqb_refl (a : pystr) : pystr_eqb a a = true.
Proof. now apply pystr_eqb_eq. Qed.

Lemma write_same (w : world) (path : pystr) (v : pyval) :
  files (Env.write w path v) path = Pickled v.
Proof. cbn. now rewrite pystr_eqb_refl. Qed.

Lemma write_other (w : world) (path p : pystr) (v : pyval) :
  p <> path -> files (Env.write w path v) p = files w p.
Proof.
  intros Hne. cbn. destruct (pystr_eqb p path) eqn:E; [|reflexivity].
  apply pystr_eqb_eq in E. contradiction.
Qed.

(** A pickled dict whose expiry can be ordered against the clock: the
    token comes back when it is truthy and the clock is below the expiry. *)
Lemma load_pickled_dict (path : pystr) (w : world)
    (d : list (pystr * pyval)) (tok expiry : pyval) (b : bool) :
  files w path = Pickled (PDict d) ->
  Py.get (PDict d) (lit "access_token") = Return tok ->
  Py.get (PDict d) (lit "expire_time") = Return expiry ->
  Py.float_lt (now w) expiry = Return b ->
  _load_access_token path w
  = (Return (if Py.truthy tok && b then tok else PNone), w, []).
Proof.
  intros Hfile Htok Hexp Hlt. rewrite load_run, Hfile.
  unfold Py.get in Htok, Hexp. cbv zeta.
  destruct (Py.assoc (lit "access_token") d);
    destruct (Py.assoc (lit "expire_time") d);
    injection Htok as <-; injection Hexp as <-;
    rewrite Hlt; destruct (Py.truthy _), b; reflexivity.
Qed.

Lemma load_cache_entry (path : pystr) (w : world) (tok : pyval)
    (expiry : float) :
  files w path = Pickled (cache_entry tok expiry) ->
  _load_access_token path w
  = (Return (if Py.truthy tok && PrimFloat.ltb (now w) expiry
             then tok else PNone),
     w, []).
Proof.
  intros Hfile. rewrite load_run, Hfile. cbn.
  destruct (Py.truthy tok), (PrimFloat.ltb (now w) expiry); reflexivity.
Qed.

(** C6: when the cache file holds a persisted pair of token and expiry,
    [_load_access_token] returns the token exactly when the token is
    truthy and the clock is strictly below the expiry, and [None]
    otherwise; it changes nothing and emits nothing. *)
Theorem load_returns_unexpired_token (path : pystr) (w : world)
    (tok : pyval) (expire_time : float) :
  files w path = Pickled (cache_entry tok expire_time) ->
  _load_access_token path w
  = (Return (if Py.truthy tok && PrimFloat.ltb (now w) expire_time
             then tok else PNone),
     w, []).
Proof.
  intros Hfile.
  now apply load_pickled_dict
    with (d := [(lit "access_token", tok);
                (lit "expire_time", PFloat expire_time)])
         (expiry := PFloat expire_time).
Qed.

Lemma load_returns_unexpired_token_witness :
  _load_access_token default_token_file
    (Sample.granting 1000 (Sample.cached (lit "T1") 2000))
  = (Return (PStr (lit "T1")),
     Sample.granting 1000 (Sample.cached (lit "T1") 2000), [])
  /\ _load_access_token default_token_file
       (Sample.granting 3000 (Sample.cached (lit "T1") 2000))
     = (Return PNone,
        Sample.granting 3000 (Sample.cached (lit "T1") 2000), []).
Proof.
  split.
  - exact (@load_returns_unexpired_token default_token_file
             (Sample.granting 1000 (Sample.cached (lit "T1") 2000))
             (PStr (lit "T1")) 2000 eq_refl).
  - exact (@load_returns_unexpired_token default_token_file
             (Sample.granting 3000 (Sample.cached (lit "T1") 2000))
             (PStr (lit "T1")) 2000 eq_refl).
Defined.




(** C7: for every token and every time-to-live that can be added to the
    clock, when the token file can be opened for writing
    [_save_access_token] computes the expiry as the clock plus the
    time-to-live, makes the token file hold exactly the pair of token and
    expiry, whatever it held before, leaves every other file alone, and
    sets the token of the client to the saved token. *)
Theorem save_persists_pair (access_token' expires_in : pyval)
    (this : client) (w : world) (expire_time : float) :
  Py.float_add (now w) expires_in = Return expire_time ->
  files w (token_file this) <> Inaccessible ->
  exists this' w',
    _save_access_token access_token' expires_in (this, w)
    = (Return tt, (this', w'), [])
    /\ files w' (token_file this)
       = Pickled (PDict [ (lit "access_token", access_token');
                          (lit "expire_time", PFloat expire_time) ])
    /\ (forall p, p <> token_file this -> files w' p = files w p)
    /\ access_token this' = access_token'
    /\ this' = with_access_token this access_token'
    /\ now w' = now w.
Proof.
  intros Hadd Hopen.
  exists (with_access_token this access_token'),
    (Env.write w (token_file this) (cache_entry access_token' expire_time)).
  rewrite save_run, Hadd.
  split; [|split; [|split; [|split; [|split]]]]; try reflexivity.
  - destruct (files w (token_file this)); try reflexivity.
    now destruct Hopen.
  - apply write_same.
  - intros p Hp. now apply write_other.
Qed.

Lemma save_persists_pair_witness :
  exists this' w',
    _save_access_token (PStr (lit "T2")) (PInt 7200)
      (Sample.bare PNone, Sample.with_cache 3000)
    = (Return tt, (this', w'), [])
    /\ files w' default_token_file
       = Pickled (PDict [ (lit "access_token", PStr (lit "T2"));
                          (lit "expire_time", PFloat 10200) ])
    /\ (forall p, p <> default_token_file ->
                  files w' p = files (Sample.with_cache 3000) p)
    /\ access_token this' = PStr (lit "T2")
    /\ this' = with_access_token (Sample.bare PNone) (PStr (lit "T2"))
    /\ now w' = 3000%float.
Proof.
  apply (@save_persists_pair (PStr (lit "T2")) (PInt 7200)
           (Sample.bare PNone) (Sample.with_cache 3000) 10200).
  - vm_compute. reflexivity.
  - cbv. discriminate.
Defined.

(** What was saved is what a later load sees. *)
Lemma load_after_save (tok ttl : pyval) (this this' : client)
    (w w' : world) (t : list event) :
  _save_access_token tok ttl (this, w) = (Return tt, (this', w'), t) ->
  exists expire_time,
    Py.float_add (now w) ttl = Return expire_time
    /\ _load_access_token (token_file this) w'
       = (Return (if Py.truthy tok && PrimFloat.ltb (now w') expire_time
                  then tok else PNone), w', []).
Proof.
  rewrite save_run.
  destruct (Py.float_add (now w) ttl) as [e|e]; [|discriminate].
  destruct (files w (token_file this)) eqn:Hfile; try discriminate;
    intros [= <- <- <-]; exists e; (split; [reflexivity|]);
    apply load_cache_entry, write_same.
Qed.

(** ** Getting a token *)

(** A truthy token in memory is returned as it is, with no request. *)
Lemma get_cached_token (this : client) (w : world) :
  Py.truthy (access_token this) = true ->
  _get_access_token (this, w) = (Return (access_token this), (this, w), []).
Proof.
  intros Htrue. unfold _get_access_token, bind, self. cbn [fst snd].
  now rewrite Htrue.
Qed.

(** Without a truthy token in memory the authentication endpoint is
    called, once. *)
Lemma get_absent_token_requests (this : client) (w : world) :
  Py.truthy (access_token this) = false ->
  exists r s1,
    _get_access_token (this, w)
    = (r, s1, [Get (gettoken_url (corpid this) (corpsecret this))]).
Proof.
  intros Hfalse.
  destruct (_get_access_token (this, w)) as [[r s1] t] eqn:Hget.
  exists r, s1. f_equal.
  revert Hget. unfold _get_access_token, bind at 1, self. cbn [fst snd].
  rewrite Hfalse. unfold bind at 1, env, Env.http_get. cbn [fst snd app].
  destruct (on_get w _) as [resp|]; [|now intros [= _ _ <-]].
  destruct (status_code resp =? 200)%Z; [|now intros [= _ _ <-]].
  unfold bind at 1, of_result.
  destruct (Env.json_of resp) as [data|e]; [|now intros [= _ _ <-]].
  unfold bind at 1.
  destruct (Py.get data (lit "errcode")) as [errcode|e];
    [|now intros [= _ _ <-]].
  destruct (Py.eq_zero errcode).
  - unfold bind at 1.
    destruct (Py.subscript data (lit "access_token")) as [tok|e];
      [|now intros [= _ _ <-]].
    unfold bind at 1.
    destruct (Py.subscript data (lit "expires_in")) as [ttl|e];
      [|now intros [= _ _ <-]].
    unfold bind at 1. rewrite save_run.
    destruct (Py.float_add (now w) ttl) as [expiry|e];
      [|now intros [= _ _ <-]].
    destruct (files w (token_file this)); now intros [= _ _ <-].
  - unfold bind at 1.
    destruct (Py.subscript data (lit "errmsg")) as [m|e];
      now intros [= _ _ <-].
Qed.

(** [__init__] takes the first three fields and then loads the token. *)
Lemma init_run (token_str token_file : pystr) (w : world) :
  __init__ token_str token_file w =
  match Str.split 0x23 token_str with
  | f0 :: f1 :: f2 :: rest =>
      match _load_access_token token_file w with
      | (Return tok, w', t) =>
          (Return {| token_list := f0 :: f1 :: f2 :: rest;
                     corpid := f0;
                     corpsecret := f1;
                     agentid := f2;
                     token_file := token_file;
                     access_token := tok |}, w', t)
      | (Raise e, w', t) => (Raise e, w', t)
      end
  | _ => (Raise IndexError, w, [])
  end.
Proof.
  unfold __init__.
  destruct (Str.split 0x23 token_str) as [|f0 [|f1 [|f2 rest]]];
    try reflexivity.
  unfold bind, of_result, Py.index, ret. cbn [nth_error app].
  destruct (_load_access_token token_file w) as [[[tok|e] w'] t];
    [|reflexivity].
  now rewrite app_nil_r.
Qed.

(** A client built while the cache file holds a token with its expiry in
    the future gets that token, and asking for the token then makes no
    request. *)
Lemma cached_token_reused (token_str token_file : pystr) (w : world)
    (token : pystr) (expire_time : float)
    (c : client) (w' : world) (t : list event) :
  files w token_file = Sample.cached token expire_time ->
  token <> [] ->
  PrimFloat.ltb (now w) expire_time = true ->
  __init__ token_str token_file w = (Return c, w', t) ->
  w' = w /\ t = []
  /\ _get_access_token (c, w) = (Return (PStr token), (c, w), []).
Proof.
  intros Hfile Hne Hlt. rewrite init_run.
  destruct (Str.split 0x23 token_str) as [|f0 [|f1 [|f2 rest]]];
    try discriminate.
  rewrite (load_cache_entry _ _ Hfile), Hlt.
  destruct token as [|c0 token]; [contradiction|]. cbn [Py.truthy andb].
  intros [= <- <- <-]. repeat split.
Qed.

(** C2, where the code departs from it: a client built at time 1000 from a
    cache file whose token is good until 2000 still hands out that token
    at time 3000, with no request to the authentication endpoint, although
    [_load_access_token] at that time finds the token expired. *)
Theorem expired_token_reused :
  exists c,
    __init__ (lit "id#secret#1000002") default_token_file
      (Sample.with_cache 1000)
    = (Return c, Sample.with_cache 1000, [])
    /\ _load_access_token default_token_file (Sample.with_cache 3000)
       = (Return PNone, Sample.with_cache 3000, [])
    /\ _get_access_token (c, Sample.with_cache 3000)
       = (Return (PStr (lit "T1")), (c, Sample.with_cache 3000), []).
Proof.
  eexists. split; [reflexivity|]. split; reflexivity.
Qed.

(** ** Failures *)

Lemma surjective_pairing_run (A St : Type) (x : result A * St * list event) :
  x = (fst (fst x), snd (fst x), snd x).
Proof. now destruct x as [[r s] t]. Defined.

(** C4: when the client holds no token and the authentication endpoint
    answers with a status other than 200, or with JSON whose [errcode] is
    not 0, [_get_access_token] raises, and [send_message] raises the same
    exception having made the authentication request only: nothing is
    posted to the message-send endpoint, and the client and the cache file
    stay as they were. *)
Theorem auth_failure_aborts_send (int : pystr -> option Z)
    (title content : pystr) (this : client) (w : world) (r : response) :
  Py.truthy (access_token this) = false ->
  on_get w (gettoken_url (corpid this) (corpsecret this)) = Replied r ->
  (status_code r <> 200%Z
   \/ exists data errcode,
        json r = Some data
        /\ Py.get data (lit "errcode") = Return errcode
        /\ Py.eq_zero errcode = false) ->
  exists e t,
    _get_access_token (this, w) = (Raise e, (this, w), t)
    /\ send_message int title content (this, w) = (Raise e, (this, w), t)
    /\ t = [Get (gettoken_url (corpid this) (corpsecret this))]
    /\ Posted.no_post t.
Proof.
  intros Hfalse Hreply Hfail.
  assert (Hget : exists e,
             _get_access_token (this, w)
             = (Raise e, (this, w),
                [Get (gettoken_url (corpid this) (corpsecret this))])).
  { unfold _get_access_token, bind at 1, self. cbn [fst snd].
    rewrite Hfalse. unfold bind at 1, env, Env.http_get. cbn [fst snd].
    rewrite Hreply. cbn [app].
    destruct Hfail as [Hstatus | (data & errcode & Hjson & Hcode & Hnz)].
    - apply Z.eqb_neq in Hstatus. rewrite Hstatus. eexists. reflexivity.
    - destruct (status_code r =? 200)%Z; [|eexists; reflexivity].
      unfold bind at 1, of_result, Env.json_of. rewrite Hjson.
      unfold bind at 1. rewrite Hcode, Hnz.
      unfold bind.
      destruct (Py.subscript data (lit "errmsg")); eexists; reflexivity. }
  destruct Hget as [e Hget].
  exists e, [Get (gettoken_url (corpid this) (corpsecret this))].
  split; [exact Hget|]. split; [|split; [reflexivity|]].
  - now rewrite send_message_run, Hget.
  - intros ev [<- | []]. reflexivity.
Qed.

Lemma auth_failure_aborts_send_witness :
  exists e t,
    _get_access_token (Sample.bare PNone, Sample.refusing 1000 Missing)
    = (Raise e, (Sample.bare PNone, Sample.refusing 1000 Missing), t)
    /\ send_message Sample.int (lit "t") (lit "<div>X</div>")
         (Sample.bare PNone, Sample.refusing 1000 Missing)
       = (Raise e, (Sample.bare PNone, Sample.refusing 1000 Missing), t)
    /\ t = [Get (gettoken_url (lit "id") (lit "secret"))]
    /\ Posted.no_post t.
Proof.
  apply (@auth_failure_aborts_send Sample.int (lit "t") (lit "<div>X</div>")
           (Sample.bare PNone) (Sample.refusing 1000 Missing)
           {| status_code := 200;
              json := Some (PDict [ (lit "errcode", PInt 40013);
                                    (lit "errmsg",
                                     PStr (lit "invalid corpid")) ]) |}).
  - reflexivity.
  - reflexivity.
  - right. exists (PDict [ (lit "errcode", PInt 40013);
                           (lit "errmsg", PStr (lit "invalid corpid")) ]),
      (PInt 40013).
    split; [reflexivity|]. split; reflexivity.
Defined.

(** What a run that posted a message went through. *)
Lemma send_message_posting (int : pystr -> option Z)
    (title content : pystr) (s s' : client * world) (res : result pyval)
    (t : list event) (url : fstring) (body hdrs : pyval) :
  send_message int title content s = (res, s', t) ->
  In (Post url body hdrs) t ->
  exists tok t1,
    _get_access_token s = (Return tok, s', t1)
    /\ url = send_url tok
    /\ match on_post (snd s) url body hdrs with
       | Unreachable =>
           res = Raise ConnectionError /\ t = t1 ++ [Post url body hdrs]
       | Replied r =>
           if (status_code r =? 200)%Z
           then res = Env.json_of r
                /\ t = t1 ++ [Post url body hdrs; Print [Lit msg_sent]]
           else res = Return PNone
                /\ t = t1 ++ [Post url body hdrs;
                              Print [Lit msg_send_failed;
                                     Hole (PInt (status_code r))]]
       end.
Proof.
  rewrite send_message_run.
  destruct (_get_access_token s) as [[[tok|e] s1] t1] eqn:Hget;
    pose proof (get_access_token_step _ Hget) as Hstep;
    pose proof (token_step_no_post Hstep) as Hquiet;
    destruct Hstep as [_ _ Hsame].
  2: { intros [= <- <- <-] Hin. now apply Hquiet in Hin. }
  destruct (int (agentid (fst s1))) as [n|].
  2: { intros [= <- <- <-] Hin. now apply Hquiet in Hin. }
  cbv zeta. rewrite Hsame.
  assert (Hpost : forall tail,
             (forall e, In e tail -> Posted.is_post e = false) ->
             In (Post url body hdrs)
                (t1 ++ Post (send_url tok) (message n title content) headers
                    :: tail) ->
             Post url body hdrs
             = Post (send_url tok) (message n title content) headers).
  { intros tail Htail Hin. apply in_app_or in Hin.
    destruct Hin as [Hin | [Heq | Hin]].
    - now apply Hquiet in Hin.
    - now symmetry.
    - now apply Htail in Hin. }
  destruct (on_post (snd s) (send_url tok) (message n title content) headers)
    as [r|] eqn:Hreply.
  - destruct (status_code r =? 200)%Z eqn:Hcode; intros [= <- <- <-] Hin;
      apply Hpost in Hin; try (intros e [<- | []]; reflexivity);
      injection Hin as -> -> ->; exists tok, t1;
      rewrite Hreply, Hcode; auto.
  - intros [= <- <- <-] Hin. apply Hpost in Hin; [|intros e []].
    injection Hin as -> -> ->. exists tok, t1. rewrite Hreply. auto.
Qed.

(** C5: when the message-send endpoint answers a posted message with a
    status other than 200, [send_message] returns [None], raises nothing,
    and its last output is the line that prints the status code; on
    status 200 it prints the success line and returns what
    [response.json()] gives, the parsed body when there is one. *)
Theorem send_status_decides_result (int : pystr -> option Z)
    (title content : pystr) (s s' : client * world) (res : result pyval)
    (t : list event) (url : fstring) (body hdrs : pyval) (r : response) :
  send_message int title content s = (res, s', t) ->
  In (Post url body hdrs) t ->
  on_post (snd s) url body hdrs = Replied r ->
  (status_code r <> 200%Z ->
   res = Return PNone
   /\ exists t1,
        t = t1 ++ [Post url body hdrs;
                   Print [Lit msg_send_failed;
                          Hole (PInt (status_code r))]])
  /\ (status_code r = 200%Z ->
      res = Env.json_of r
      /\ (forall v, json r = Some v -> res = Return v)
      /\ exists t1,
           t = t1 ++ [Post url body hdrs; Print [Lit msg_sent]]).
Proof.
  intros Hrun Hin Hreply.
  destruct (@send_message_posting int title content s s' res t url body hdrs
              Hrun Hin) as (tok & t1 & _ & _ & Hcases).
  rewrite Hreply in Hcases.
  split; intros Hstatus.
  - apply Z.eqb_neq in Hstatus. rewrite Hstatus in Hcases.
    destruct Hcases as [-> ->]. split; [reflexivity|]. now exists t1.
  - apply Z.eqb_eq in Hstatus. rewrite Hstatus in Hcases.
    destruct Hcases as [-> ->]. split; [reflexivity|]. split.
    + intros v Hv. unfold Env.json_of. now rewrite Hv.
    + now exists t1.
Qed.

Lemma send_status_decides_result_witness :
  fst (fst (send_message Sample.int (lit "t") (lit "<div>X</div>")
              (Sample.bare PNone, Sample.failing_send 500 1000 Missing)))
  = Return PNone
  /\ fst (fst (send_message Sample.int (lit "t") (lit "<div>X</div>")
                 Sample.fresh))
     = Return (PDict [ (lit "errcode", PInt 0);
                       (lit "errmsg", PStr (lit "ok")) ]).
Proof.
  split.
  - refine (proj1 (proj1 (@send_status_decides_result Sample.int
                            (lit "t") (lit "<div>X</div>")
                            (Sample.bare PNone,
                             Sample.failing_send 500 1000 Missing)
                            _ _ _ (send_url (PStr (lit "T2")))
                            (message 1000002 (lit "t") (lit "<div>X</div>"))
                            headers
                            {| status_code := 500; json := None |}
                            _ _ _) _)).
    + apply surjective_pairing_run.
    + cbv. right. left. reflexivity.
    + reflexivity.
    + discriminate.
  - refine (proj1 (proj2 (proj2 (@send_status_decides_result Sample.int
                            (lit "t") (lit "<div>X</div>")
                            Sample.fresh
                            _ _ _ (send_url (PStr (lit "T2")))
                            (message 1000002 (lit "t") (lit "<div>X</div>"))
                            headers
                            {| status_code := 200;
                               json := Some (PDict [ (lit "errcode", PInt 0);
                                                     (lit "errmsg",
                                                      PStr (lit "ok")) ]) |}
                            _ _ _) _)) _ eq_refl).
    + apply surjective_pairing_run.
    + cbv. right. left. reflexivity.
    + reflexivity.
    + reflexivity.
Defined.

(** ** The constructor *)

(** The fields of [s.split(sep)] are one more than the separators. *)
Lemma split_length (sep : N) (s : pystr) :
  List.length (Str.split sep s) = S (count_occ N.eq_dec s sep).
Proof.
  induction s as [|c rest IH]; [reflexivity|].
  cbn [Str.split count_occ].
  destruct (N.eqb_spec c sep) as [->|Hne].
  - destruct (N.eq_dec sep sep); [|contradiction].
    cbn [List.length]. now rewrite IH.
  - destruct (N.eq_dec c sep); [contradiction|].
    destruct (Str.split sep rest); [discriminate IH|exact IH].
Qed.

(** C10: with fewer than three fields between the ['#'] of the credential
    string [__init__] raises [IndexError] before it touches anything; a
    client that was built has at least three fields and holds the first,
    the second and the third as [corpid], [corpsecret] and [agentid]; with
    three fields the construction goes as the loading of the token goes;
    and when [int] rejects the third field [send_message] posts nothing:
    it raises [ValueError] once it has a token, or whatever getting the
    token raised. *)
Theorem constructor_needs_three_fields (token_str token_file : pystr)
    (w : world) :
  (List.length (Str.split 0x23 token_str) < 3 ->
   __init__ token_str token_file w = (Raise IndexError, w, []))
  /\ (forall c w' t,
         __init__ token_str token_file w = (Return c, w', t) ->
         3 <= List.length (Str.split 0x23 token_str)
         /\ token_list c = Str.split 0x23 token_str
         /\ nth_error (Str.split 0x23 token_str) 0 = Some (corpid c)
         /\ nth_error (Str.split 0x23 token_str) 1 = Some (corpsecret c)
         /\ nth_error (Str.split 0x23 token_str) 2 = Some (agentid c))
  /\ (3 <= List.length (Str.split 0x23 token_str) ->
      forall tok w' t,
        _load_access_token token_file w = (Return tok, w', t) ->
        exists c, __init__ token_str token_file w = (Return c, w', t)
                  /\ access_token c = tok)
  /\ (forall (int : pystr -> option Z) (title content : pystr)
             (this : client) (w0 : world) (res : result pyval)
             (s' : client * world) (t : list event),
         int (agentid this) = None ->
         send_message int title content (this, w0) = (res, s', t) ->
         Posted.no_post t
         /\ ((exists tok,
                 _get_access_token (this, w0) = (Return tok, s', t)
                 /\ res = Raise ValueError)
             \/ (exists e,
                    _get_access_token (this, w0) = (Raise e, s', t)
                    /\ res = Raise e))).
Proof.
  rewrite init_run.
  split; [|split; [|split]].
  - destruct (Str.split 0x23 token_str) as [|f0 [|f1 [|f2 rest]]];
      cbn [List.length]; intros Hlen; try reflexivity. lia.
  - intros c w' t.
    destruct (Str.split 0x23 token_str) as [|f0 [|f1 [|f2 rest]]];
      try discriminate.
    destruct (_load_access_token token_file w) as [[[tok|e] w1] t1];
      [|discriminate].
    intros [= <- <- <-]. cbn. repeat split. lia.
  - destruct (Str.split 0x23 token_str) as [|f0 [|f1 [|f2 rest]]];
      cbn [List.length]; intros Hlen; try lia.
    intros tok w' t ->. eexists. split; reflexivity.
  - intros int title content this w0 res s' t Hint.
    rewrite send_message_run.
    destruct (_get_access_token (this, w0)) as [[[tok|e] s1] t1] eqn:Hget;
      pose proof (get_access_token_step _ Hget) as Hstep;
      pose proof (token_step_no_post Hstep) as Hquiet;
      destruct Hstep as [_ Hagent _].
    + rewrite Hagent. cbn [fst]. rewrite Hint. intros [= <- <- <-].
      split; [exact Hquiet|]. left. now exists tok.
    + intros [= <- <- <-]. split; [exact Hquiet|]. right. now exists e.
Qed.

Lemma constructor_needs_three_fields_witness :
  __init__ (lit "wwe11a5be7f") default_token_file (Sample.with_cache 1000)
  = (Raise IndexError, Sample.with_cache 1000, [])
  /\ (3 <= List.length (Str.split 0x23 (lit "id#secret#1000002"))
      /\ token_list (Sample.bare (PStr (lit "T1")))
         = Str.split 0x23 (lit "id#secret#1000002")
      /\ nth_error (Str.split 0x23 (lit "id#secret#1000002")) 0
         = Some (lit "id")
      /\ nth_error (Str.split 0x23 (lit "id#secret#1000002")) 1
         = Some (lit "secret")
      /\ nth_error (Str.split 0x23 (lit "id#secret#1000002")) 2
         = Some (lit "1000002"))
  /\ (exists c,
         __init__ (lit "id#secret#1000002") default_token_file
           (Sample.with_cache 1000)
         = (Return c, Sample.with_cache 1000, [])
         /\ access_token c = PStr (lit "T1"))
  /\ (Posted.no_post
        (snd (send_message Sample.int (lit "t") (lit "<div>X</div>")
                (Sample.unnumbered, Sample.granting 1000 Missing)))
      /\ fst (fst (send_message Sample.int (lit "t") (lit "<div>X</div>")
                     (Sample.unnumbered, Sample.granting 1000 Missing)))
         = Raise ValueError).
Proof.
  split; [|split; [|split]].
  - apply (proj1 (constructor_needs_three_fields (lit "wwe11a5be7f")
                    default_token_file (Sample.with_cache 1000))).
    cbv. lia.
  - apply (proj1 (proj2 (constructor_needs_three_fields
                           (lit "id#secret#1000002") default_token_file
                           (Sample.with_cache 1000)))
             (Sample.bare (PStr (lit "T1"))) (Sample.with_cache 1000) []).
    reflexivity.
  - apply (proj1 (proj2 (proj2 (constructor_needs_three_fields
                                  (lit "id#secret#1000002")
                                  default_token_file
                                  (Sample.with_cache 1000))))).
    + cbv. lia.
    + reflexivity.
  - destruct (proj2 (proj2 (proj2 (constructor_needs_three_fields
                                     (lit "id#secret#1000002")
                                     default_token_file
                                     (Sample.with_cache 1000))))
                Sample.int (lit "t") (lit "<div>X</div>")
                Sample.unnumbered (Sample.granting 1000 Missing)
                _ _ _ eq_refl (surjective_pairing_run _))
      as [Hquiet Hres].
    split; [exact Hquiet|].
    destruct Hres as [(tok & _ & Hres) | (e & Hget & _)];
      [exact Hres|discriminate Hget].
Defined.

(** * Further properties of the code *)

(** ** A run of [_get_access_token], case by case *)

Lemma get_access_token_run (this : client) (w : world) :
  _get_access_token (this, w) =
  let url := gettoken_url (corpid this) (corpsecret this) in
  let stop (e : exn) : result pyval * (client * world) * list event :=
    (Raise e, (this, w), [Get url]) in
  if Py.truthy (access_token this)
  then (Return (access_token this), (this, w), [])
  else
    match on_get w url with
    | Unreachable => stop ConnectionError
    | Replied r =>
        if (status_code r =? 200)%Z then
          match json r with
          | None => stop JSONDecodeError
          | Some data =>
              match Py.get data (lit "errcode") with
              | Raise e => stop e
              | Return errcode =>
                  if Py.eq_zero errcode then
                    match Py.subscript data (lit "access_token") with
                    | Raise e => stop e
                    | Return tok =>
                        match Py.subscript data (lit "expires_in") with
                        | Raise e => stop e
                        | Return ttl =>
                            match Py.float_add (now w) ttl with
                            | Raise e => stop e
                            | Return expiry =>
                                match files w (token_file this) with
                                | Inaccessible => stop OSError
                                | _ =>
                                    (Return tok,
                                     (with_access_token this tok,
                                      Env.write w (token_file this)
                                        (cache_entry tok expiry)),
                                     [Get url])
                                end
                            end
                        end
                    end
                  else
                    match Py.subscript data (lit "errmsg") with
                    | Raise e => stop e
                    | Return m =>
                        stop (Exception [Lit msg_gettoken_failed; Hole m])
                    end
              end
          end
        else stop (Exception [Lit msg_request_failed;
                              Hole (PInt (status_code r))])
    end.
Proof.
  cbv zeta.
  unfold _get_access_token, bind at 1, self. cbn [fst snd app].
  destruct (Py.truthy (access_token this)); [reflexivity|].
  unfold bind at 1, env, Env.http_get. cbn [fst snd].
  destruct (on_get w _) as [r|]; [|reflexivity]. cbn [app].
  destruct (status_code r =? 200)%Z; [|reflexivity].
  unfold bind at 1, of_result, Env.json_of.
  destruct (json r) as [data|]; [|reflexivity].
  unfold bind at 1.
  destruct (Py.get data (lit "errcode")) as [errcode|e]; [|reflexivity].
  destruct (Py.eq_zero errcode).
  - unfold bind at 1.
    destruct (Py.subscript data (lit "access_token")) as [tok|e];
      [|reflexivity].
    unfold bind at 1.
    destruct (Py.subscript data (lit "expires_in")) as [ttl|e];
      [|reflexivity].
    unfold bind at 1. rewrite save_run.
    destruct (Py.float_add (now w) ttl) as [expiry|e]; [|reflexivity].
    destruct (files w (token_file this)); reflexivity.
  - unfold bind at 1.
    destruct (Py.subscript data (lit "errmsg")) as [m|e]; reflexivity.
Qed.

(** Every case of a run, under one name for the proofs below. *)
Ltac token_cases this w :=
  rewrite (get_access_token_run this w); cbv zeta;
  destruct (Py.truthy (access_token this)) eqn:?;
  [|destruct (on_get w (gettoken_url (corpid this) (corpsecret this)))
      as [?r|] eqn:?;
    [destruct (status_code _ =? 200)%Z eqn:?;
     [destruct (json _) as [?data|] eqn:?;
      [destruct (Py.get _ (lit "errcode")) as [?errcode|?e] eqn:?;
       [destruct (Py.eq_zero _) eqn:?;
        [destruct (Py.subscript _ (lit "access_token")) as [?tok|?e] eqn:?;
         [destruct (Py.subscript _ (lit "expires_in")) as [?ttl|?e] eqn:?;
          [destruct (Py.float_add (now w) _) as [?expiry|?e] eqn:?;
           [destruct (files w (token_file this)) eqn:?| ]| ]| ]
        |destruct (Py.subscript _ (lit "errmsg")) as [?m|?e] eqn:?]
       | ]| ]| ]| ]].

(** ** Saving, loading and refreshing *)

(** X1: once [_save_access_token] has returned, loading the token file at
    any later clock gives the saved token back as long as it is truthy and
    the clock is below the expiry that was computed, and [None] after
    that. *)
Theorem saved_token_loads_back (tok ttl : pyval) (this this' : client)
    (w w' : world) (t : list event) (later : float) :
  _save_access_token tok ttl (this, w) = (Return tt, (this', w'), t) ->
  exists expiry,
    Py.float_add (now w) ttl = Return expiry
    /\ _load_access_token (token_file this) (at_time w' later)
       = (Return (if Py.truthy tok && PrimFloat.ltb later expiry
                  then tok else PNone),
          at_time w' later, []).
Proof.
  rewrite save_run.
  destruct (Py.float_add (now w) ttl) as [expiry|e]; [|discriminate].
  destruct (files w (token_file this)) eqn:Hfile; try discriminate;
    intros [= <- <- <-]; exists expiry; (split; [reflexivity|]);
    apply (load_cache_entry (token_file this)
             (at_time (Env.write w (token_file this)
                         (cache_entry tok expiry)) later));
    apply write_same.
Qed.

Lemma saved_token_loads_back_witness :
  exists expiry,
    Py.float_add 1000 (PInt 7200) = Return expiry
    /\ _load_access_token default_token_file
         (at_time (Env.write (Sample.granting 1000 Missing)
                     default_token_file
                     (cache_entry (PStr (lit "T2")) 8200)) 8199.5)
       = (Return (if Py.truthy (PStr (lit "T2"))
                     && PrimFloat.ltb 8199.5 expiry
                  then PStr (lit "T2") else PNone),
          at_time (Env.write (Sample.granting 1000 Missing)
                     default_token_file
                     (cache_entry (PStr (lit "T2")) 8200)) 8199.5, []).
Proof.
  apply (@saved_token_loads_back (PStr (lit "T2")) (PInt 7200)
           (Sample.bare PNone)
           (with_access_token (Sample.bare PNone) (PStr (lit "T2")))
           (Sample.granting 1000 Missing)
           (Env.write (Sample.granting 1000 Missing) default_token_file
              (cache_entry (PStr (lit "T2")) 8200))
           [] 8199.5).
  vm_compute. reflexivity.
Defined.

(** X2: a client without a token, answered by the authentication endpoint
    with status 200 and a dict whose [errcode] is 0, whose [access_token]
    and [expires_in] are there and whose [expires_in] can be added to the
    clock, gets that token with a single request, holds it in memory
    afterwards, and finds it written to the token file with its expiry. *)
Theorem refresh_fetches_and_persists (this : client) (w : world)
    (r : response) (data errcode tok ttl : pyval) (expiry : float) :
  Py.truthy (access_token this) = false ->
  on_get w (gettoken_url (corpid this) (corpsecret this)) = Replied r ->
  status_code r = 200%Z ->
  json r = Some data ->
  Py.get data (lit "errcode") = Return errcode ->
  Py.eq_zero errcode = true ->
  Py.subscript data (lit "access_token") = Return tok ->
  Py.subscript data (lit "expires_in") = Return ttl ->
  Py.float_add (now w) ttl = Return expiry ->
  files w (token_file this) <> Inaccessible ->
  exists this' w',
    _get_access_token (this, w)
    = (Return tok, (this', w'),
       [Get (gettoken_url (corpid this) (corpsecret this))])
    /\ access_token this' = tok
    /\ files w' (token_file this)
       = Pickled (PDict [ (lit "access_token", tok);
                          (lit "expire_time", PFloat expiry) ]).
Proof.
  intros Hnone Hreply Hstatus Hjson Hcode Hzero Htok Httl Hadd Hopen.
  exists (with_access_token this tok),
    (Env.write w (token_file this) (cache_entry tok expiry)).
  rewrite get_access_token_run. cbv zeta.
  rewrite Hnone, Hreply, Hstatus, Hjson, Hcode, Hzero, Htok, Httl, Hadd.
  cbn [Z.eqb Pos.eqb].
  split; [|split; [reflexivity|apply write_same]].
  destruct (files w (token_file this)); try reflexivity.
  now destruct Hopen.
Qed.

Lemma refresh_fetches_and_persists_witness :
  exists this' w',
    _get_access_token (Sample.bare PNone, Sample.with_cache 3000)
    = (Return (PStr (lit "T2")), (this', w'),
       [Get (gettoken_url (lit "id") (lit "secret"))])
    /\ access_token this' = PStr (lit "T2")
    /\ files w' default_token_file
       = Pickled (PDict [ (lit "access_token", PStr (lit "T2"));
                          (lit "expire_time", PFloat 10200) ]).
Proof.
  apply (@refresh_fetches_and_persists (Sample.bare PNone)
           (Sample.with_cache 3000)
           {| status_code := 200;
              json := Some (PDict [ (lit "errcode", PInt 0);
                                    (lit "errmsg", PStr (lit "ok"));
                                    (lit "access_token", PStr (lit "T2"));
                                    (lit "expires_in", PInt 7200) ]) |}
           (PDict [ (lit "errcode", PInt 0);
                    (lit "errmsg", PStr (lit "ok"));
                    (lit "access_token", PStr (lit "T2"));
                    (lit "expires_in", PInt 7200) ])
           (PInt 0) (PStr (lit "T2")) (PInt 7200) 10200);
    try reflexivity.
  cbv. discriminate.
Defined.

(** X3: when [_get_access_token] raises, no token has been set: the
    client is the client of before the call.  Unless what it raises is
    the [OSError] of the token file that could not be written, the
    environment is the one of before as well, with every file as it
    was. *)
Theorem failed_token_request_sets_no_token (s s1 : client * world)
    (e : exn) (t : list event) :
  _get_access_token s = (Raise e, s1, t) ->
  fst s1 = fst s /\ (e <> OSError -> snd s1 = snd s).
Proof.
  destruct s as [this w]. token_cases this w;
    intros Hrun; try discriminate Hrun; injection Hrun as _ <- _;
    now split.
Qed.

Lemma failed_token_request_sets_no_token_witness :
  fst (snd (fst (_get_access_token
                   (Sample.bare PNone, Sample.refusing 1000 Missing))))
  = Sample.bare PNone
  /\ snd (snd (fst (_get_access_token
                      (Sample.bare PNone, Sample.refusing 1000 Missing))))
     = Sample.refusing 1000 Missing.
Proof.
  destruct (@failed_token_request_sets_no_token
              (Sample.bare PNone, Sample.refusing 1000 Missing)
              (snd (fst (_get_access_token
                           (Sample.bare PNone,
                            Sample.refusing 1000 Missing))))
              (Exception [Lit msg_gettoken_failed;
                          Hole (PStr (lit "invalid corpid"))])
              [Get (gettoken_url (lit "id") (lit "secret"))] eq_refl)
    as [Hclient Hworld].
  split; [exact Hclient|]. apply Hworld. discriminate.
Defined.

(** X4: a truthy token that [_get_access_token] has returned stays with
    the client: every later call returns it again without a request and
    without a look at the clock or the token file, whatever the
    environment has become. *)
Theorem returned_token_is_kept (s s1 : client * world) (tok : pyval)
    (t : list event) (w' : world) :
  _get_access_token s = (Return tok, s1, t) ->
  Py.truthy tok = true ->
  _get_access_token (fst s1, w') = (Return tok, (fst s1, w'), []).
Proof.
  destruct s as [this w]. intros Hrun Htrue.
  assert (Hheld : access_token (fst s1) = tok).
  { revert Hrun. token_cases this w; intros Hrun;
      try discriminate Hrun; now injection Hrun as <- <- _. }
  rewrite get_access_token_run, Hheld, Htrue. reflexivity.
Qed.

Lemma returned_token_is_kept_witness :
  _get_access_token
    (with_access_token (Sample.bare PNone) (PStr (lit "T2")),
     Sample.refusing 99999 Corrupt)
  = (Return (PStr (lit "T2")),
     (with_access_token (Sample.bare PNone) (PStr (lit "T2")),
      Sample.refusing 99999 Corrupt), []).
Proof.
  apply (@returned_token_is_kept
           (Sample.bare PNone, Sample.granting 1000 Missing)
           (with_access_token (Sample.bare PNone) (PStr (lit "T2")),
            Env.write (Sample.granting 1000 Missing) default_token_file
              (cache_entry (PStr (lit "T2")) 8200))
           (PStr (lit "T2"))
           [Get (gettoken_url (lit "id") (lit "secret"))]
           (Sample.refusing 99999 Corrupt)).
  - vm_compute. reflexivity.
  - reflexivity.
Defined.

(** ** What a call of [send_message] does and leaves alone *)

(** The fields set by [__init__] other than the token, the clock, the two
    endpoints and every file but the token file are the same after
    [_get_access_token]. *)
Lemma get_access_token_frame (this this' : client) (w w' : world)
    (r : result pyval) (t : list event) :
  _get_access_token (this, w) = (r, (this', w'), t) ->
  token_list this' = token_list this
  /\ corpid this' = corpid this
  /\ corpsecret this' = corpsecret this
  /\ agentid this' = agentid this
  /\ token_file this' = token_file this
  /\ now w' = now w
  /\ on_get w' = on_get w
  /\ on_post w' = on_post w
  /\ (forall p, p <> token_file this -> files w' p = files w p).
Proof.
  token_cases this w; intros [= <- <- <- <-];
    repeat (split; [reflexivity|]);
    intros p Hp; try reflexivity; now apply write_other.
Qed.

(** X5: a call of [send_message] makes at most one request to the
    authentication endpoint, then at most one to the message-send
    endpoint, then prints at most one line, and prints only after it has
    posted. *)
Theorem send_message_requests_in_order (int : pystr -> option Z)
    (title content : pystr) (s s' : client * world) (res : result pyval)
    (t : list event) :
  send_message int title content s = (res, s', t) ->
  exists gets posts prints,
    t = gets ++ posts ++ prints
    /\ (gets = []
        \/ gets = [Get (gettoken_url (corpid (fst s)) (corpsecret (fst s)))])
    /\ (posts = [] /\ prints = []
        \/ exists tok n,
             _get_access_token s = (Return tok, s', gets)
             /\ int (agentid (fst s)) = Some n
             /\ posts = [Post (send_url tok) (message n title content)
                           headers]
             /\ (prints = [] \/ exists msg, prints = [Print msg])).
Proof.
  rewrite send_message_run.
  destruct (_get_access_token s) as [[[tok|e] s1] t1] eqn:Hget;
    pose proof (get_access_token_step _ Hget) as [Hevents Hagent _].
  2: { intros [= <- <- <-]. exists t1, [], [].
       rewrite !app_nil_r. auto. }
  rewrite Hagent.
  destruct (int (agentid (fst s))) as [n|] eqn:Hint.
  2: { intros [= <- <- <-]. exists t1, [], [].
       rewrite !app_nil_r. auto. }
  cbv zeta.
  destruct (on_post (snd s1) _ _ _) as [r|];
    [destruct (status_code r =? 200)%Z|]; intros [= <- <- <-].
  - exists t1, [Post (send_url tok) (message n title content) headers],
      [Print [Lit msg_sent]].
    split; [reflexivity|]. split; [exact Hevents|]. right.
    exists tok, n. repeat split; eauto.
  - exists t1, [Post (send_url tok) (message n title content) headers],
      [Print [Lit msg_send_failed; Hole (PInt (status_code r))]].
    split; [reflexivity|]. split; [exact Hevents|]. right.
    exists tok, n. repeat split; eauto.
  - exists t1, [Post (send_url tok) (message n title content) headers], [].
    split; [reflexivity|]. split; [exact Hevents|]. right.
    exists tok, n. repeat split; auto.
Qed.

Lemma send_message_requests_in_order_witness :
  exists gets posts prints,
    snd (send_message Sample.int (lit "t") (lit "<div>X</div>") Sample.fresh)
    = gets ++ posts ++ prints
    /\ (gets = []
        \/ gets = [Get (gettoken_url (lit "id") (lit "secret"))])
    /\ (posts = [] /\ prints = []
        \/ exists tok n,
             _get_access_token Sample.fresh
             = (Return tok,
                snd (fst (send_message Sample.int (lit "t")
                            (lit "<div>X</div>") Sample.fresh)),
                gets)
             /\ Sample.int (lit "1000002") = Some n
             /\ posts = [Post (send_url tok)
                           (message n (lit "t") (lit "<div>X</div>"))
                           headers]
             /\ (prints = [] \/ exists msg, prints = [Print msg])).
Proof.
  apply (@send_message_requests_in_order Sample.int (lit "t")
           (lit "<div>X</div>") Sample.fresh
           (snd (fst (send_message Sample.int (lit "t")
                        (lit "<div>X</div>") Sample.fresh)))
           (fst (fst (send_message Sample.int (lit "t")
                        (lit "<div>X</div>") Sample.fresh)))).
  apply surjective_pairing_run.
Defined.

(** X6: [send_message] never changes the identity of the client
    ([token_list], [corpid], [corpsecret], [agentid], [token_file]), the
    clock or the endpoints, and the only file it can write is the token
    file of the client. *)
Theorem send_message_frame (int : pystr -> option Z)
    (title content : pystr) (this this' : client) (w w' : world)
    (res : result pyval) (t : list event) :
  send_message int title content (this, w) = (res, (this', w'), t) ->
  token_list this' = token_list this
  /\ corpid this' = corpid this
  /\ corpsecret this' = corpsecret this
  /\ agentid this' = agentid this
  /\ token_file this' = token_file this
  /\ now w' = now w
  /\ on_get w' = on_get w
  /\ on_post w' = on_post w
  /\ (forall p, p <> token_file this -> files w' p = files w p).
Proof.
  rewrite send_message_run.
  destruct (_get_access_token (this, w)) as [[[tok|e] [this1 w1]] t1]
    eqn:Hget;
    pose proof (@get_access_token_frame _ _ _ _ _ _ Hget) as Hframe.
  2: { now intros [= <- <- <- <-]. }
  destruct (int (agentid (fst (this1, w1)))) as [n|].
  2: { now intros [= <- <- <- <-]. }
  cbv zeta.
  destruct (on_post (snd (this1, w1)) _ _ _) as [r|];
    [destruct (status_code r =? 200)%Z|]; now intros [= <- <- <- <-].
Qed.

Lemma send_message_frame_witness :
  files (snd (snd (fst (send_message Sample.int (lit "t")
                          (lit "<div>X</div>") Sample.fresh))))
    (lit "other.data")
  = Missing.
Proof.
  refine (proj2 (proj2 (proj2 (proj2 (proj2 (proj2 (proj2 (proj2
            (@send_message_frame Sample.int (lit "t") (lit "<div>X</div>")
               (Sample.bare PNone)
               (with_access_token (Sample.bare PNone) (PStr (lit "T2")))
               (Sample.granting 1000 Missing) _
               (fst (fst (send_message Sample.int (lit "t")
                            (lit "<div>X</div>") Sample.fresh)))
               (snd (send_message Sample.int (lit "t")
                       (lit "<div>X</div>") Sample.fresh))
               _)))))))) (lit "other.data") _).
  - reflexivity.
  - cbv. discriminate.
Defined.

(** X7: a client that holds a truthy token sends with it as it is:
    [send_message] makes no request to the authentication endpoint, does
    not touch the client or the token file, and any message it posts goes
    to the url that carries the held token. *)
Theorem send_with_held_token (int : pystr -> option Z)
    (title content : pystr) (this : client) (w : world)
    (res : result pyval) (s' : client * world) (t : list event) :
  Py.truthy (access_token this) = true ->
  send_message int title content (this, w) = (res, s', t) ->
  s' = (this, w)
  /\ (forall e, In e t -> is_get e = false)
  /\ (forall url body hdrs,
         In (Post url body hdrs) t -> url = send_url (access_token this)).
Proof.
  intros Hheld. rewrite send_message_run, (get_cached_token _ w Hheld).
  cbn [fst snd app].
  destruct (int (agentid this)) as [n|].
  2: { intros [= <- <- <-]. repeat split; intros; contradiction. }
  cbv zeta.
  destruct (on_post w _ _ _) as [r|];
    [destruct (status_code r =? 200)%Z|]; intros [= <- <- <-];
    (split; [reflexivity|]); split.
  - intros e [<- | [<- | []]]; reflexivity.
  - intros url body hdrs [[= <- _ _] | [[=] | []]]. reflexivity.
  - intros e [<- | [<- | []]]; reflexivity.
  - intros url body hdrs [[= <- _ _] | [[=] | []]]. reflexivity.
  - intros e [<- | []]; reflexivity.
  - intros url body hdrs [[= <- _ _] | []]. reflexivity.
Qed.

Lemma send_with_held_token_witness :
  snd (fst (send_message Sample.int (lit "t") (lit "<div>X</div>")
              (Sample.bare (PStr (lit "T1")), Sample.refusing 5000 Corrupt)))
  = (Sample.bare (PStr (lit "T1")), Sample.refusing 5000 Corrupt).
Proof.
  refine (proj1 (@send_with_held_token Sample.int (lit "t")
                   (lit "<div>X</div>") (Sample.bare (PStr (lit "T1")))
                   (Sample.refusing 5000 Corrupt) _ _ _ eq_refl
                   (surjective_pairing_run _))).
Defined.

(** ** The replies of the authentication endpoint *)

(** X8: what [_get_access_token] raises when the authentication endpoint
    refuses: for a status other than 200 an [Exception] whose message ends
    with the status code; for status 200 with an [errcode] that is not 0,
    an [Exception] whose message ends with the [errmsg] of the reply, and
    a [KeyError] for ["errmsg"] when the reply has none. *)
Theorem refusal_is_reported (this : client) (w : world) (r : response) :
  Py.truthy (access_token this) = false ->
  on_get w (gettoken_url (corpid this) (corpsecret this)) = Replied r ->
  let stop (e : exn) :=
    _get_access_token (this, w)
    = (Raise e, (this, w),
       [Get (gettoken_url (corpid this) (corpsecret this))]) in
  (status_code r <> 200%Z ->
   stop (Exception [Lit msg_request_failed; Hole (PInt (status_code r))]))
  /\ (forall d errcode,
         status_code r = 200%Z ->
         json r = Some (PDict d) ->
         Py.get (PDict d) (lit "errcode") = Return errcode ->
         Py.eq_zero errcode = false ->
         match Py.assoc (lit "errmsg") d with
         | Some m => stop (Exception [Lit msg_gettoken_failed; Hole m])
         | None => stop (KeyError (lit "errmsg"))
         end).
Proof.
  intros Hnone Hreply stop. subst stop. cbv beta.
  rewrite get_access_token_run. cbv zeta. rewrite Hnone, Hreply.
  split.
  - intros Hstatus. apply Z.eqb_neq in Hstatus. now rewrite Hstatus.
  - intros d errcode -> -> Hcode Hnz. rewrite Hcode, Hnz.
    cbn [Z.eqb Pos.eqb Py.subscript].
    destruct (Py.assoc (lit "errmsg") d); reflexivity.
Qed.

Lemma refusal_is_reported_witness :
  _get_access_token (Sample.bare PNone, Sample.refusing 1000 Missing)
  = (Raise (Exception [Lit msg_gettoken_failed;
                       Hole (PStr (lit "invalid corpid"))]),
     (Sample.bare PNone, Sample.refusing 1000 Missing),
     [Get (gettoken_url (lit "id") (lit "secret"))]).
Proof.
  exact (proj2 (@refusal_is_reported (Sample.bare PNone)
                  (Sample.refusing 1000 Missing)
                  {| status_code := 200;
                     json := Some (PDict [ (lit "errcode", PInt 40013);
                                           (lit "errmsg",
                                            PStr (lit "invalid corpid")) ])
                  |} eq_refl eq_refl)
           [ (lit "errcode", PInt 40013);
             (lit "errmsg", PStr (lit "invalid corpid")) ]
           (PInt 40013) eq_refl eq_refl eq_refl eq_refl).
Defined.

(** X9: what [_get_access_token] raises when the authentication endpoint
    answers 200 with a body it cannot use: [JSONDecodeError] for a body
    that is not JSON, [AttributeError] for JSON that is not a dict, and,
    when [errcode] is 0, [KeyError] for a missing [access_token] or
    [expires_in] and [TypeError] for an [expires_in] that is not a number.
    Each time only the request was made. *)
Theorem unusable_grant_raises (this : client) (w : world) (r : response) :
  Py.truthy (access_token this) = false ->
  on_get w (gettoken_url (corpid this) (corpsecret this)) = Replied r ->
  status_code r = 200%Z ->
  let stop (e : exn) :=
    _get_access_token (this, w)
    = (Raise e, (this, w),
       [Get (gettoken_url (corpid this) (corpsecret this))]) in
  (json r = None -> stop JSONDecodeError)
  /\ (forall data,
         json r = Some data -> (forall d, data <> PDict d) ->
         stop AttributeError)
  /\ (forall d errcode,
         json r = Some (PDict d) ->
         Py.get (PDict d) (lit "errcode") = Return errcode ->
         Py.eq_zero errcode = true ->
         (Py.assoc (lit "access_token") d = None ->
          stop (KeyError (lit "access_token")))
         /\ (forall tok,
                Py.assoc (lit "access_token") d = Some tok ->
                Py.assoc (lit "expires_in") d = None ->
                stop (KeyError (lit "expires_in")))
         /\ (forall tok ttl,
                Py.assoc (lit "access_token") d = Some tok ->
                Py.assoc (lit "expires_in") d = Some ttl ->
                is_number ttl = false ->
                stop TypeError)).
Proof.
  intros Hnone Hreply Hstatus stop. subst stop. cbv beta.
  rewrite get_access_token_run. cbv zeta.
  rewrite Hnone, Hreply, Hstatus. cbn [Z.eqb Pos.eqb].
  split; [|split].
  - now intros ->.
  - intros data -> Hshape. destruct data; try reflexivity.
    now destruct (Hshape d).
  - intros d errcode -> Hcode Hzero. rewrite Hcode, Hzero.
    cbn [Py.subscript]. split; [|split].
    + now intros ->.
    + now intros tok -> ->.
    + intros tok ttl -> -> Hnum.
      destruct ttl; try discriminate Hnum; reflexivity.
Qed.

Lemma unusable_grant_raises_witness :
  _get_access_token (Sample.bare PNone, Scenario.text_lifetime)
  = (Raise TypeError, (Sample.bare PNone, Scenario.text_lifetime),
     [Get (gettoken_url (lit "id") (lit "secret"))]).
Proof.
  refine (proj2 (proj2 (proj2 (proj2
            (@unusable_grant_raises (Sample.bare PNone)
               Scenario.text_lifetime
               {| status_code := 200;
                  json := Some (PDict [ (lit "errcode", PInt 0);
                                        (lit "access_token",
                                         PStr (lit "T2"));
                                        (lit "expires_in",
                                         PStr (lit "7200")) ]) |}
               eq_refl eq_refl eq_refl))
            [ (lit "errcode", PInt 0);
              (lit "access_token", PStr (lit "T2"));
              (lit "expires_in", PStr (lit "7200")) ]
            (PInt 0) eq_refl eq_refl eq_refl))
            (PStr (lit "T2")) (PStr (lit "7200")) eq_refl eq_refl eq_refl).
Defined.

(** ** The constructor and the entry point *)

Lemma load_quiet (path : pystr) (w w' : world) (r : result pyval)
    (t : list event) :
  _load_access_token path w = (r, w', t) -> w' = w /\ t = [].
Proof.
  rewrite load_run.
  destruct (files w path) as [| | | |k|v]; try (now intros [= <- <- <-]).
  destruct v; try (now intros [= <- <- <-]).
  cbv zeta.
  destruct (Py.truthy _); [|now intros [= <- <- <-]].
  destruct (Py.float_lt _ _) as [[|]|e]; now intros [= <- <- <-].
Qed.

(** X10: building a client makes no request, prints nothing and writes
    nothing, whether it succeeds or raises: the environment after
    [__init__] is the environment before. *)
Theorem construction_is_silent (token_str token_file : pystr)
    (w w' : world) (r : result client) (t : list event) :
  __init__ token_str token_file w = (r, w', t) -> w' = w /\ t = [].
Proof.
  rewrite init_run.
  destruct (Str.split 0x23 token_str) as [|f0 [|f1 [|f2 rest]]];
    try (now intros [= <- <- <-]).
  destruct (_load_access_token token_file w) as [[[tok|e] w1] t1] eqn:Hload;
    apply load_quiet in Hload; destruct Hload as [-> ->];
    now intros [= <- <- <-].
Qed.

Lemma construction_is_silent_witness :
  snd (fst (__init__ (lit "id#secret#1000002") default_token_file
              (Sample.with_cache 1000)))
  = Sample.with_cache 1000
  /\ snd (__init__ (lit "id#secret#1000002") default_token_file
            (Sample.with_cache 1000))
     = [].
Proof.
  apply (@construction_is_silent (lit "id#secret#1000002")
           default_token_file (Sample.with_cache 1000) _
           (fst (fst (__init__ (lit "id#secret#1000002") default_token_file
                        (Sample.with_cache 1000))))).
  apply surjective_pairing_run.
Defined.

Lemma split_nonempty (sep : N) (s : pystr) : Str.split sep s <> [].
Proof.
  intros Hnil. pose proof (split_length sep s) as Hlen.
  now rewrite Hnil in Hlen.
Qed.

Lemma join_split (sep : N) (s : pystr) : join [sep] (Str.split sep s) = s.
Proof.
  induction s as [|c rest IH]; [reflexivity|].
  cbn [Str.split].
  pose proof (split_nonempty sep rest) as Hne.
  destruct (N.eqb_spec c sep) as [->|_].
  - destruct (Str.split sep rest) as [|f fs]; [contradiction|].
    cbn [join app]. now rewrite <- IH.
  - destruct (Str.split sep rest) as [|f fs]; [contradiction|].
    rewrite <- IH. destruct fs; reflexivity.
Qed.

Lemma split_fields_clean (sep : N) (s : pystr) :
  Forall (fun f => ~ In sep f) (Str.split sep s).
Proof.
  induction s as [|c rest IH]; [repeat constructor; intros []|].
  cbn [Str.split].
  destruct (N.eqb_spec c sep) as [->|Hne].
  - constructor; [intros []|exact IH].
  - destruct (Str.split sep rest) as [|f fs].
    + repeat constructor. intros [Heq | []]. now apply Hne.
    + inversion IH as [|? ? Hf Hfs]; subst. constructor; [|exact Hfs].
      intros [Heq | Hin]; [now apply Hne|now apply Hf].
Qed.

(** X11: the fields of a built client, joined again with ['#'], are the
    credential string it was built from, and none of them holds a ['#']:
    the account id, the secret and the agent id are the text before the
    first, between the first and second, and between the second and third
    ['#'], and whatever follows a third ['#'] stays in [token_list]
    only. *)
Theorem fields_rebuild_credential (token_str path : pystr)
    (w w' : world) (c : client) (t : list event) :
  __init__ token_str path w = (Return c, w', t) ->
  join [0x23%N] (token_list c) = token_str
  /\ Forall (fun f => ~ In 0x23%N f) (token_list c)
  /\ (exists rest,
         token_list c = corpid c :: corpsecret c :: agentid c :: rest)
  /\ token_file c = path.
Proof.
  rewrite init_run.
  pose proof (join_split 0x23 token_str) as Hjoin.
  pose proof (split_fields_clean 0x23 token_str) as Hclean.
  destruct (Str.split 0x23 token_str) as [|f0 [|f1 [|f2 rest]]];
    try discriminate.
  destruct (_load_access_token path w) as [[[tok|e] w1] t1];
    [|discriminate].
  intros [= <- <- <-]. cbn [token_list corpid corpsecret agentid].
  split; [exact Hjoin|]. split; [exact Hclean|].
  split; [now exists rest|reflexivity].
Qed.

Lemma fields_rebuild_credential_witness :
  join [0x23%N] [lit "id"; lit "sec"; lit "ret"; lit "1000002"]
  = lit "id#sec#ret#1000002"
  /\ Forall (fun f => ~ In 0x23%N f)
       [lit "id"; lit "sec"; lit "ret"; lit "1000002"]
  /\ (exists rest,
         [lit "id"; lit "sec"; lit "ret"; lit "1000002"]
         = lit "id" :: lit "sec" :: lit "ret" :: rest)
  /\ default_token_file = default_token_file.
Proof.
  apply (@fields_rebuild_credential (lit "id#sec#ret#1000002")
           default_token_file (Sample.with_cache 1000)
           (Sample.with_cache 1000)
           {| token_list := [lit "id"; lit "sec"; lit "ret"; lit "1000002"];
              corpid := lit "id";
              corpsecret := lit "sec";
              agentid := lit "ret";
              token_file := default_token_file;
              access_token := PStr (lit "T1") |}
           []).
  reflexivity.
Defined.

(** X12: the entry point of the file never gets to send: its credential
    string has no ['#'], so in every environment, and whatever [int] does,
    it stops with [IndexError] in the constructor, having read no file
    and made no request. *)
Theorem main_stops_in_constructor (int : pystr -> option Z) (w : world) :
  Main.main int w = (Raise IndexError, w, []).
Proof.
  unfold Main.main, bind. rewrite init_run. reflexivity.
Qed.

(** ** The digest *)

(** Replacing a pattern whose first code point the string does not hold
    changes nothing. *)
Lemma replace_absent (s old new : pystr) (c0 : N) (tail : pystr) :
  old = c0 :: tail -> ~ In c0 s -> Str.replace s old new = s.
Proof.
  intros -> Habsent. unfold Str.replace.
  induction s as [|c rest IH]; [reflexivity|].
  cbn [Str.replace_scan Str.starts_with].
  destruct (N.eqb_spec c0 c) as [->|_].
  - exfalso. apply Habsent. now left.
  - cbn [andb]. f_equal. apply IH. intros Hin. apply Habsent. now right.
Qed.

Lemma clean_digest_plain (content : pystr) :
  ~ In 0x3C%N content -> clean_digest content = content.
Proof.
  intros Hplain. unfold clean_digest. cbv zeta.
  repeat (erewrite (@replace_absent content); [|reflexivity|exact Hplain]).
  reflexivity.
Qed.

(** X13: for content without a ['<'] no tag is found, and the digest of
    the posted article is the content with the whitespace at both ends
    taken away. *)
Theorem plain_content_digest (int : pystr -> option Z)
    (title content : pystr) (s s' : client * world) (res : result pyval)
    (t : list event) (url : fstring) (body hdrs : pyval) :
  ~ In 0x3C%N content ->
  send_message int title content s = (res, s', t) ->
  In (Post url body hdrs) t ->
  Posted.article_field body (lit "digest")
  = Some (PStr (Str.strip content)).
Proof.
  intros Hplain Hrun Hin.
  destruct (@posted_message int title content s s' res t url body hdrs
              Hrun Hin) as (n & _ & -> & _).
  now rewrite article_digest, clean_digest_plain.
Qed.

Lemma plain_content_digest_witness :
  Posted.article_field
    (message 1000002 (lit "t") (lit "  steps: 12345 "))
    (lit "digest")
  = Some (PStr (lit "steps: 12345")).
Proof.
  refine (@plain_content_digest Sample.int (lit "t") (lit "  steps: 12345 ")
            Sample.fresh _ _ _ (send_url (PStr (lit "T2")))
            (message 1000002 (lit "t") (lit "  steps: 12345 "))
            headers _ _ _).
  - cbv. intuition discriminate.
  - reflexivity.
  - cbv. right. left. reflexivity.
Defined.

Lemma lstrip_head (s : pystr) (c : N) (r : pystr) :
  Str.lstrip s = c :: r -> Str.isspace c = false.
Proof.
  induction s as [|a rest IH]; [discriminate|].
  cbn [Str.lstrip]. destruct (Str.isspace a) eqn:Ha; [exact IH|].
  now intros [= <- _].
Qed.

Lemma lstrip_suffix (s : pystr) : exists p, s = p ++ Str.lstrip s.
Proof.
  induction s as [|a rest [p IH]]; [now exists []|].
  cbn [Str.lstrip]. destruct (Str.isspace a).
  - exists (a :: p). cbn [app]. now rewrite <- IH.
  - now exists [].
Qed.

Lemma rstrip_prefix (s : pystr) : exists q, s = Str.rstrip s ++ q.
Proof.
  unfold Str.rstrip. destruct (lstrip_suffix (rev s)) as [p Hp].
  exists (rev p). rewrite <- rev_app_distr, <- Hp. now rewrite rev_involutive.
Qed.

Lemma strip_ends (s : pystr) :
  (forall c r, Str.strip s = c :: r -> Str.isspace c = false)
  /\ (forall c r, rev (Str.strip s) = c :: r -> Str.isspace c = false).
Proof.
  unfold Str.strip. split; intros c r Hd.
  - destruct (rstrip_prefix (Str.lstrip s)) as [q Hq].
    rewrite Hd in Hq. cbn [app] in Hq. exact (lstrip_head _ Hq).
  - unfold Str.rstrip in Hd. rewrite rev_involutive in Hd.
    exact (lstrip_head _ Hd).
Qed.

(** X14: the digest of every posted article is a string that neither
    starts nor ends with a whitespace character. *)
Theorem digest_has_no_outer_whitespace (int : pystr -> option Z)
    (title content : pystr) (s s' : client * world) (res : result pyval)
    (t : list event) (url : fstring) (body hdrs : pyval) :
  send_message int title content s = (res, s', t) ->
  In (Post url body hdrs) t ->
  exists digest,
    Posted.article_field body (lit "digest") = Some (PStr digest)
    /\ (forall c r, digest = c :: r -> Str.isspace c = false)
    /\ (forall c r, rev digest = c :: r -> Str.isspace c = false).
Proof.
  intros Hrun Hin.
  destruct (@posted_message int title content s s' res t url body hdrs
              Hrun Hin) as (n & _ & -> & _).
  exists (Str.strip (clean_digest content)).
  split; [apply article_digest|apply strip_ends].
Qed.

Lemma digest_has_no_outer_whitespace_witness :
  exists digest,
    Posted.article_field
      (message 1000002 (lit "t") (lit "<div> X </div>")) (lit "digest")
    = Some (PStr digest)
    /\ (forall c r, digest = c :: r -> Str.isspace c = false)
    /\ (forall c r, rev digest = c :: r -> Str.isspace c = false).
Proof.
  refine (@digest_has_no_outer_whitespace Sample.int (lit "t")
            (lit "<div> X </div>") Sample.fresh _ _ _
            (send_url (PStr (lit "T2")))
            (message 1000002 (lit "t") (lit "<div> X </div>"))
            headers _ _).
  - reflexivity.
  - cbv. right. left. reflexivity.
Defined.

(** ** From one client to the next *)

(** A token fetched by a client that had none is in the token file. *)
Lemma fetched_token_is_cached (this : client) (w : world) (tok : pyval)
    (s1 : client * world) (t : list event) :
  Py.truthy (access_token this) = false ->
  _get_access_token (this, w) = (Return tok, s1, t) ->
  exists expiry,
    files (snd s1) (token_file this) = Pickled (cache_entry tok expiry)
    /\ access_token (fst s1) = tok.
Proof.
  intros Hnone. token_cases this w; intros Hrun; try discriminate Hrun;
    try congruence;
    injection Hrun as <- <- _; eexists; split;
      solve [apply write_same | reflexivity].
Qed.

(** X15: when a client without a token has fetched a truthy one, a client
    built afterwards on the same token file, at a clock still below the
    expiry written there, starts with that token and gets it without any
    request. *)
Theorem fetched_token_serves_next_client (this : client) (w : world)
    (tok : pyval) (s1 : client * world) (t : list event) :
  Py.truthy (access_token this) = false ->
  _get_access_token (this, w) = (Return tok, s1, t) ->
  Py.truthy tok = true ->
  exists expiry,
    files (snd s1) (token_file this) = Pickled (cache_entry tok expiry)
    /\ forall (later : float) (token_str : pystr) (next : client)
              (w2 : world) (t2 : list event),
         PrimFloat.ltb later expiry = true ->
         __init__ token_str (token_file this) (at_time (snd s1) later)
         = (Return next, w2, t2) ->
         access_token next = tok
         /\ _get_access_token (next, w2) = (Return tok, (next, w2), []).
Proof.
  intros Hnone Hrun Htrue.
  destruct (@fetched_token_is_cached this w tok s1 t Hnone Hrun)
    as (expiry & Hfile & _).
  exists expiry. split; [exact Hfile|].
  intros later token_str next w2 t2 Hlt. rewrite init_run.
  destruct (Str.split 0x23 token_str) as [|f0 [|f1 [|f2 rest]]];
    try discriminate.
  rewrite (load_cache_entry (token_file this) (at_time (snd s1) later) Hfile).
  cbn [now at_time]. rewrite Htrue, Hlt. cbn [andb].
  intros [= <- <- <-]. split; [reflexivity|].
  now apply get_cached_token.
Qed.

Lemma fetched_token_serves_next_client_witness :
  exists expiry,
    files (snd (snd (fst (_get_access_token Sample.fresh))))
      default_token_file
    = Pickled (cache_entry (PStr (lit "T2")) expiry)
    /\ forall (later : float) (token_str : pystr) (next : client)
              (w2 : world) (t2 : list event),
         PrimFloat.ltb later expiry = true ->
         __init__ token_str default_token_file
           (at_time (snd (snd (fst (_get_access_token Sample.fresh))))
              later)
         = (Return next, w2, t2) ->
         access_token next = PStr (lit "T2")
         /\ _get_access_token (next, w2)
            = (Return (PStr (lit "T2")), (next, w2), []).
Proof.
  apply (@fetched_token_serves_next_client (Sample.bare PNone)
           (Sample.granting 1000 Missing) (PStr (lit "T2"))
           (snd (fst (_get_access_token Sample.fresh)))
           (snd (_get_access_token Sample.fresh))).
  - reflexivity.
  - reflexivity.
  - reflexivity.
Defined.

(** X16: a client built when the token in the cache file has run out
    starts without a token, and its next [_get_access_token] makes exactly
    one request to the authentication endpoint; if that call returns a
    token, the token is in memory and has replaced the old pair in the
    file. *)
Theorem expired_cache_is_refreshed (token_str path : pystr) (w : world)
    (old : pyval) (expired : float) (c : client) (w' : world)
    (t : list event) :
  files w path = Pickled (cache_entry old expired) ->
  PrimFloat.ltb (now w) expired = false ->
  __init__ token_str path w = (Return c, w', t) ->
  access_token c = PNone
  /\ exists r s1,
       _get_access_token (c, w)
       = (r, s1, [Get (gettoken_url (corpid c) (corpsecret c))])
       /\ forall tok,
            r = Return tok ->
            access_token (fst s1) = tok
            /\ exists expiry,
                 files (snd s1) path = Pickled (cache_entry tok expiry).
Proof.
  intros Hfile Hexpired. rewrite init_run.
  destruct (Str.split 0x23 token_str) as [|f0 [|f1 [|f2 rest]]];
    try discriminate.
  rewrite (load_cache_entry path w Hfile), Hexpired, andb_false_r.
  intros [= <- <- <-]. split; [reflexivity|].
  match goal with
  | |- context [_get_access_token (?c0, w)] => set (c := c0)
  end.
  assert (Hnone : Py.truthy (access_token c) = false) by reflexivity.
  destruct (get_absent_token_requests c w Hnone) as (r & s1 & Hrun).
  exists r, s1. split; [exact Hrun|].
  intros tok ->.
  destruct (@fetched_token_is_cached c w tok s1 _ Hnone Hrun)
    as (expiry & Hnew & Hheld).
  split; [exact Hheld|]. now exists expiry.
Qed.

Lemma expired_cache_is_refreshed_witness :
  access_token (Sample.bare PNone) = PNone
  /\ exists r s1,
       _get_access_token (Sample.bare PNone, Sample.with_cache 3000)
       = (r, s1, [Get (gettoken_url (lit "id") (lit "secret"))])
       /\ forall tok,
            r = Return tok ->
            access_token (fst s1) = tok
            /\ exists expiry,
                 files (snd s1) default_token_file
                 = Pickled (cache_entry tok expiry).
Proof.
  apply (@expired_cache_is_refreshed (lit "id#secret#1000002")
           default_token_file (Sample.with_cache 3000)
           (PStr (lit "T1")) 2000 (Sample.bare PNone)
           (Sample.with_cache 3000) []).
  - reflexivity.
  - reflexivity.
  - reflexivity.
Defined.

(** ** Text inside one tag *)

(** The scan of [replace] walks over a stretch that does not hold the
    first code point of the pattern. *)
Lemma replace_scan_through (c0 : N) (tail new x b : pystr) :
  ~ In c0 x ->
  Str.replace_scan (c0 :: tail) new 0 (x ++ b)
  = x ++ Str.replace_scan (c0 :: tail) new 0 b.
Proof.
  intros Habsent. induction x as [|c rest IH]; [reflexivity|].
  cbn [app Str.replace_scan Str.starts_with].
  destruct (N.eqb_spec c0 c) as [->|_].
  - exfalso. apply Habsent. now left.
  - cbn [andb]. f_equal. apply IH. intros Hin. apply Habsent. now right.
Qed.

Ltac scan_step Hplain :=
  first
    [ rewrite (@replace_scan_through _ _ _ _ _ Hplain)
    | progress cbn [Str.replace Str.replace_scan Str.starts_with app N.eqb
                      Pos.eqb andb List.length Nat.sub] ].

Ltac scan_all Hplain :=
  unfold clean_digest, newline; cbv zeta;
  cbv [lit list_ascii_of_string List.map N_of_ascii N_of_digits
         N.add N.mul Pos.add Pos.mul Pos.succ];
  repeat scan_step Hplain;
  rewrite ?app_nil_r.

Lemma clean_digest_wrapped (x : pystr) :
  ~ In 0x3C%N x ->
  clean_digest (lit "<div>" ++ x ++ lit "</div>") = x
  /\ clean_digest (lit "<ul>" ++ x ++ lit "</ul>") = x
  /\ clean_digest (lit "<li>" ++ x ++ lit "</li>") = x
  /\ clean_digest (lit "<span>" ++ x ++ lit "</span>") = newline ++ x.
Proof.
  intros Hplain.
  split; [|split; [|split]]; scan_all Hplain; reflexivity.
Qed.

(** X17: for a text without ['<'] wrapped in one of the four tags
    ([div], [ul], [li], [span]), the digest of the posted article is the
    text with the whitespace at both ends taken away; the newline that
    stands for [<span>] goes with it. *)
Theorem wrapped_text_digest (int : pystr -> option Z)
    (title text opening closing : pystr) (s s' : client * world)
    (res : result pyval) (t : list event) (url : fstring)
    (body hdrs : pyval) :
  In (opening, closing) tags ->
  ~ In 0x3C%N text ->
  send_message int title (opening ++ text ++ closing) s = (res, s', t) ->
  In (Post url body hdrs) t ->
  Posted.article_field body (lit "digest") = Some (PStr (Str.strip text)).
Proof.
  intros Htag Hplain Hrun Hin.
  destruct (@posted_message int title (opening ++ text ++ closing) s s' res
              t url body hdrs Hrun Hin) as (n & _ & -> & _).
  rewrite article_digest.
  destruct (clean_digest_wrapped text Hplain) as (Hdiv & Hul & Hli & Hspan).
  destruct Htag as [[= <- <-] | [[= <- <-] | [[= <- <-] | [[= <- <-] | []]]]].
  - now rewrite Hdiv.
  - now rewrite Hul.
  - now rewrite Hli.
  - now rewrite Hspan.
Qed.

Lemma wrapped_text_digest_witness :
  Posted.article_field
    (message 1000002 (lit "t") (lit "<span>" ++ lit " A " ++ lit "</span>"))
    (lit "digest")
  = Some (PStr (lit "A")).
Proof.
  refine (@wrapped_text_digest Sample.int (lit "t") (lit " A ")
            (lit "<span>") (lit "</span>") Sample.fresh _ _ _
            (send_url (PStr (lit "T2")))
            (message 1000002 (lit "t")
               (lit "<span>" ++ lit " A " ++ lit "</span>"))
            headers _ _ _ _).
  - cbv. intuition.
  - cbv. intuition discriminate.
  - reflexivity.
  - cbv. right. left. reflexivity.
Defined.

(** ** How many ['#'] the credential string needs *)

(** X18: [__init__] raises [IndexError] exactly when the credential
    string holds fewer than two ['#']. *)
Theorem index_error_iff_too_few_separators (token_str path : pystr)
    (w : world) :
  fst (fst (__init__ token_str path w)) = Raise IndexError
  <-> count_occ N.eq_dec token_str 0x23%N < 2.
Proof.
  pose proof (split_length 0x23 token_str) as Hlen.
  rewrite init_run.
  destruct (Str.split 0x23 token_str) as [|f0 [|f1 [|f2 rest]]];
    cbn [List.length] in Hlen.
  - discriminate Hlen.
  - split; [intros _; lia|reflexivity].
  - split; [intros _; lia|reflexivity].
  - split; [|lia].
    rewrite load_run.
    destruct (files w path) as [| | | |k|v]; try discriminate;
      [destruct k; discriminate|].
    destruct v; try discriminate. cbv zeta.
    destruct (Py.truthy _); [|discriminate].
    destruct (Py.float_lt _ _) as [[|]|e]; discriminate.
Qed.

Lemma index_error_iff_too_few_separators_witness :
  fst (fst (__init__ (lit "id#secret") default_token_file
              (Sample.with_cache 1000)))
  = Raise IndexError
  /\ count_occ N.eq_dec (lit "wwe11a5be7f") 0x23%N < 2.
Proof.
  split.
  - apply (proj2 (index_error_iff_too_few_separators (lit "id#secret")
                    default_token_file (Sample.with_cache 1000))).
    cbv. lia.
  - apply (proj1 (index_error_iff_too_few_separators (lit "wwe11a5be7f")
                    default_token_file (Sample.with_cache 1000))).
    reflexivity.
Defined.
